(** * Educational File Sharing Protocol: a shallow embedding

    The development follows the three modules of the repository:
    [protocol.py] (message codec, chunking, compression wrappers),
    [server.py] (one request per accepted connection) and [client.py]
    (the handshake, the request builder, the sending side of an upload
    and the receiving side of a download).

    Conventions.
    - A Python [bytes] value is a [list byte]; a Python [str] is a Rocq
      [string] holding the UTF-8 code units of the text, so that
      [s.encode('utf-8')] is [list_byte_of_string s].
    - A Python [int] is a [Z]; [len] is [Z.of_nat (length _)].
    - A Python function that can raise returns a [result]; code that also
      talks to a socket or to the file system lives in the monad [M]
      (state and exceptions) of module [Net].
    - [struct] is used by the source in native mode (no byte-order prefix):
      fields are aligned to their size and stored little-endian, as on
      x86-64 and AArch64. *)

From Stdlib Require Import List ZArith Lia String Ascii Bool DecimalString.
From Stdlib.Strings Require Import Byte.
Import ListNotations.
Local Open Scope Z_scope.

Definition bytes := list byte.

(** ** Python values, exceptions and slicing *)
Module Py.

(** The exception classes the code can meet; all derive from
    [Exception].  Each carries the text that [str(e)] returns. *)
Inductive exn : Type :=
| ValueError (msg : string)
| StructError (msg : string)
| ZlibError (msg : string)
| UnicodeDecodeError (msg : string)
| AttributeError (msg : string)
| OSError (msg : string).

Definition str_of_exn (e : exn) : string :=
  match e with
  | ValueError m | StructError m | ZlibError m
  | UnicodeDecodeError m | AttributeError m | OSError m => m
  end.

Inductive result (A : Type) : Type :=
| Ok (a : A)
| Raise (e : exn).
Arguments Ok {A} a.
Arguments Raise {A} e.

Definition bind {A B} (r : result A) (k : A -> result B) : result B :=
  match r with
  | Ok a => k a
  | Raise e => Raise e
  end.

Definition is_ok {A} (r : result A) : bool :=
  match r with Ok _ => true | Raise _ => false end.

Definition len {A} (l : list A) : Z := Z.of_nat (List.length l).

(** [str(n)] for an integer. *)
Definition str_of_int (n : Z) : string := NilZero.string_of_int (Z.to_int n).

(** [bytes([n])] for [0 <= n < 256]. *)
Definition byte_of_Z (n : Z) : byte :=
  match Byte.of_N (Z.to_N (n mod 256)) with
  | Some b => b
  | None => x00
  end.

Definition Z_of_byte (b : byte) : Z := Z.of_N (Byte.to_N b).

(** A slice bound as Python normalises it: a negative bound counts from
    the end, and every bound is clamped to [0, len]. *)
Definition clamp (n : nat) (k : Z) : nat :=
  if k <? 0 then Z.to_nat (Z.max 0 (k + Z.of_nat n))
  else Nat.min (Z.to_nat k) n.

(** [l[lo:hi]] *)
Definition slice {A} (l : list A) (lo hi : Z) : list A :=
  let i := clamp (List.length l) lo in
  let j := clamp (List.length l) hi in
  firstn (j - i) (skipn i l).

(** [l[lo:]] *)
Definition slice_from {A} (l : list A) (lo : Z) : list A :=
  skipn (clamp (List.length l) lo) l.

(** [range(start, stop, step)], as a list. *)
Definition range (start stop step : Z) : result (list Z) :=
  if step =? 0 then Raise (ValueError "range() arg 3 must not be zero")
  else
    let count :=
      if 0 <? step then (stop - start + step - 1) / step
      else (start - stop - step - 1) / (- step) in
    Ok (map (fun k => start + Z.of_nat k * step) (seq 0 (Z.to_nat count))).

(** [enumerate(l)] *)
Definition enumerate {A} (l : list A) : list (Z * A) :=
  combine (map Z.of_nat (seq 0 (List.length l))) l.

(** Strict UTF-8 well-formedness, the condition under which
    [b.decode('utf-8')] returns. *)
Definition between (lo hi : N) (b : byte) : bool :=
  (N.leb lo (Byte.to_N b) && N.leb (Byte.to_N b) hi)%bool.

Definition is_cont : byte -> bool := between 128 191.

Fixpoint utf8_valid (bs : bytes) : bool :=
  match bs with
  | [] => true
  | b0 :: r0 =>
      if between 0 127 b0 then utf8_valid r0
      else if between 194 223 b0 then
        match r0 with
        | b1 :: r1 => is_cont b1 && utf8_valid r1
        | _ => false
        end
      else if between 224 239 b0 then
        match r0 with
        | b1 :: b2 :: r2 =>
            (if between 224 224 b0 then between 160 191 b1
             else if between 237 237 b0 then between 128 159 b1
             else is_cont b1)
            && is_cont b2 && utf8_valid r2
        | _ => false
        end
      else if between 240 244 b0 then
        match r0 with
        | b1 :: b2 :: b3 :: r3 =>
            (if between 240 240 b0 then between 144 191 b1
             else if between 244 244 b0 then between 128 143 b1
             else is_cont b1)
            && is_cont b2 && is_cont b3 && utf8_valid r3
        | _ => false
        end
      else false
  end.

(** [s.encode('utf-8')] *)
Definition encode_utf8 (s : string) : bytes := list_byte_of_string s.

End Py.

Import Py.

Declare Scope py_scope.
Delimit Scope py_scope with py.
Notation "x <- r ;; k" := (Py.bind r (fun x => k))
  (at level 100, r at next level, right associativity) : py_scope.
Local Open Scope py_scope.

(** ** The parts of the Python runtime that are not modelled bit for bit

    [zlib] and [hashlib] are external libraries; so is the wording of the
    messages of [zlib.error] and [UnicodeDecodeError].  They are taken as
    a record of functions. *)
Record Runtime : Type := {
  zlib_compress : bytes -> Z -> bytes;
  zlib_decompress : bytes -> option bytes;
  zlib_error_text : bytes -> string;
  unicode_error_text : bytes -> string;
  sha256_hexdigest : bytes -> string
}.

(** What [zlib] guarantees: decompression inverts compression. *)
Definition zlib_lawful (rt : Runtime) : Prop :=
  forall data level, zlib_decompress rt (zlib_compress rt data level) = Some data.

(** [zlib.decompress(b)] *)
Definition zlib_decompress_py (rt : Runtime) (b : bytes) : result bytes :=
  match zlib_decompress rt b with
  | Some d => Ok d
  | None => Raise (ZlibError (zlib_error_text rt b))
  end.

(** [b.decode('utf-8')] *)
Definition decode_utf8 (rt : Runtime) (b : bytes) : result string :=
  if utf8_valid b then Ok (string_of_list_byte b)
  else Raise (UnicodeDecodeError (unicode_error_text rt b)).

(** ** [struct] in native mode *)
Module Struct.

Inductive code : Type :=
| cB   (* 'B': unsigned char *)
| cI   (* 'I': unsigned int *)
| cq.  (* 'q': long long *)

Definition size (c : code) : nat :=
  match c with cB => 1 | cI => 4 | cq => 8 end%nat.

(** Padding inserted before a field of size [a] placed at offset [off]. *)
Definition pad (off a : nat) : nat := ((a - off mod a) mod a)%nat.

Fixpoint end_offset (off : nat) (fmt : list code) : nat :=
  match fmt with
  | [] => off
  | c :: fmt' => end_offset (off + pad off (size c) + size c) fmt'
  end.

(** [struct.calcsize(fmt)] *)
Definition calcsize (fmt : list code) : nat := end_offset 0 fmt.

Definition in_range (c : code) (v : Z) : bool :=
  match c with
  | cB => (0 <=? v) && (v <=? 255)
  | cI => (0 <=? v) && (v <=? 4294967295)
  | cq => (-9223372036854775808 <=? v) && (v <=? 9223372036854775807)
  end.

(** The text of the [struct.error] raised for a value outside the range
    of its format.  [pack] first converts the value to a C integer
    ([long] for 'B', [unsigned long] for 'I', [long long] for 'q', all of
    64 bits here); when the value does not fit that type the text is
    "argument out of range", and the range of the format is named only
    when it does. *)
Definition range_text (c : code) (v : Z) : string :=
  match c with
  | cB =>
      if (-9223372036854775808 <=? v) && (v <=? 9223372036854775807)
      then "ubyte format requires 0 <= number <= 255"
      else "argument out of range"
  | cI =>
      if (0 <=? v) && (v <=? 18446744073709551615)
      then "'I' format requires 0 <= number <= 4294967295"
      else "argument out of range"
  | cq => "argument out of range"
  end.

(** Little-endian bytes of [v], two's complement for a negative [v]. *)
Fixpoint le_bytes (n : nat) (v : Z) : bytes :=
  match n with
  | O => []
  | S n' => byte_of_Z (v mod 256) :: le_bytes n' (v / 256)
  end.

Fixpoint le_value (bs : bytes) : Z :=
  match bs with
  | [] => 0
  | b :: bs' => Z_of_byte b + 256 * le_value bs'
  end.

Definition decode_field (c : code) (bs : bytes) : Z :=
  let v := le_value bs in
  match c with
  | cq => if v <? 9223372036854775808 then v else v - 18446744073709551616
  | _ => v
  end.

Fixpoint pack_from (off : nat) (fmt : list code) (vs : list Z) : result bytes :=
  match fmt, vs with
  | [], [] => Ok []
  | c :: fmt', v :: vs' =>
      if in_range c v then
        rest <- pack_from (off + pad off (size c) + size c) fmt' vs' ;;
        Ok (repeat x00 (pad off (size c)) ++ le_bytes (size c) v ++ rest)
      else Raise (StructError (range_text c v))
  | _, _ => Raise (StructError "pack received the wrong number of items")
  end.

(** [struct.pack(fmt, *vs)] *)
Definition pack (fmt : list code) (vs : list Z) : result bytes :=
  pack_from 0 fmt vs.

Fixpoint unpack_from (off : nat) (fmt : list code) (buf : bytes) : list Z :=
  match fmt with
  | [] => []
  | c :: fmt' =>
      let p := pad off (size c) in
      decode_field c (firstn (size c) (skipn p buf))
        :: unpack_from (off + p + size c) fmt' (skipn (p + size c) buf)
  end.

(** [struct.unpack(fmt, buf)]: the buffer must have exactly the size
    of the format. *)
Definition unpack (fmt : list code) (buf : bytes) : result (list Z) :=
  if (List.length buf =? calcsize fmt)%nat then Ok (unpack_from 0 fmt buf)
  else Raise (StructError
         ("unpack requires a buffer of "
            ++ str_of_int (Z.of_nat (calcsize fmt)) ++ " bytes")).

End Struct.

Import Struct.

(** ** [os.path] on POSIX *)
Module Posixpath.

Definition sep : ascii := "/"%char.

(** [s.rfind(c)]: index of the last occurrence, or [-1]. *)
Fixpoint rfind (s : string) (c : ascii) : Z :=
  match s with
  | EmptyString => -1
  | String a r =>
      let k := rfind r c in
      if 0 <=? k then k + 1
      else if Ascii.eqb a c then 0 else -1
  end.

Fixpoint drop (n : nat) (s : string) : string :=
  match n, s with
  | O, _ => s
  | S n', String _ r => drop n' r
  | S _, EmptyString => EmptyString
  end.

(** [os.path.basename(p)]: [i = p.rfind('/') + 1; return p[i:]]. *)
Definition basename (p : string) : string :=
  let i := rfind p sep + 1 in
  drop (Z.to_nat i) p.

Definition startswith_sep (s : string) : bool :=
  match s with
  | String a _ => Ascii.eqb a sep
  | EmptyString => false
  end.

Fixpoint endswith_sep (s : string) : bool :=
  match s with
  | EmptyString => false
  | String a EmptyString => Ascii.eqb a sep
  | String _ r => endswith_sep r
  end.

(** [os.path.join(a, b)] *)
Definition join (a b : string) : string :=
  if startswith_sep b then b
  else if (String.eqb a EmptyString || endswith_sep a)%bool then (a ++ b)%string
  else (a ++ String sep b)%string.

Fixpoint has_sep (s : string) : bool :=
  match s with
  | EmptyString => false
  | String a r => (Ascii.eqb a sep || has_sep r)%bool
  end.

End Posixpath.

(** ** protocol.py *)
Module ProtocolVersion.
Definition MAJOR : Z := 1.
Definition MINOR : Z := 0.
Definition PATCH : Z := 0.

(** [f"{major}.{minor}.{patch}"] *)
Definition format_version (major minor patch : Z) : string :=
  (str_of_int major ++ "." ++ str_of_int minor ++ "." ++ str_of_int patch)%string.

Definition get_version : string := format_version MAJOR MINOR PATCH.
End ProtocolVersion.

Module ChunkSize.
Inductive t : Type := SMALL | MEDIUM | LARGE | XLARGE.
Definition value (c : t) : Z :=
  match c with
  | SMALL => 1024
  | MEDIUM => 4096
  | LARGE => 16384
  | XLARGE => 65536
  end.
End ChunkSize.

Module CompressionLevel.
Inductive t : Type := NONE | LOW | MEDIUM | HIGH.
Definition value (c : t) : Z :=
  match c with
  | NONE => 0
  | LOW => 1
  | MEDIUM => 6
  | HIGH => 9
  end.
End CompressionLevel.

Module MessageType.
Inductive t : Type :=
| HANDSHAKE | FILE_REQUEST | FILE_RESPONSE | CHUNK_DATA | CHUNK_ACK
| ERROR | COMPLETE.
Definition value (m : t) : Z :=
  match m with
  | HANDSHAKE => 1
  | FILE_REQUEST => 2
  | FILE_RESPONSE => 3
  | CHUNK_DATA => 4
  | CHUNK_ACK => 5
  | ERROR => 6
  | COMPLETE => 7
  end.
End MessageType.

Module ProtocolMessage.

Definition create_handshake (version : string) : result bytes :=
  let msg_type := MessageType.value MessageType.HANDSHAKE in
  let version_bytes := encode_utf8 version in
  tag <- pack [cB] [msg_type] ;;
  n <- pack [cI] [len version_bytes] ;;
  Ok (tag ++ n ++ version_bytes).

Definition create_chunk (rt : Runtime) (chunk_index : Z) (data : bytes)
    (compress : bool) : result bytes :=
  let msg_type := MessageType.value MessageType.CHUNK_DATA in
  let payload :=
    if compress
    then zlib_compress rt data (CompressionLevel.value CompressionLevel.MEDIUM)
    else data in
  let compressed_flag := if compress then 1 else 0 in
  header <- pack [cB; cI; cI; cB; cq]
                 [msg_type; chunk_index; len payload; compressed_flag; len data] ;;
  Ok (header ++ payload).

Definition parse_chunk (rt : Runtime) (message : bytes)
    : result (Z * bytes * bool) :=
  t <- unpack [cB] (slice message 0 1) ;;
  let msg_type := nth 0 t 0 in
  if negb (msg_type =? MessageType.value MessageType.CHUNK_DATA) then
    Raise (ValueError ("Invalid message type: " ++ str_of_int msg_type))
  else
    fields <- unpack [cI; cB; cB; cq] (slice message 1 15) ;;
    match fields with
    | [chunk_index; payload_len; compressed; original_len] =>
        let payload := slice_from message 15 in
        payload' <- (if negb (compressed =? 0)
                     then zlib_decompress_py rt payload
                     else Ok payload) ;;
        Ok (chunk_index, payload', negb (compressed =? 0))
    | _ => Raise (ValueError "not enough values to unpack")
    end.

Definition create_error (error_code : Z) (error_msg : string) : result bytes :=
  let msg_type := MessageType.value MessageType.ERROR in
  let error_bytes := encode_utf8 error_msg in
  header <- pack [cB; cB; cI] [msg_type; error_code; len error_bytes] ;;
  Ok (header ++ error_bytes).

(** The class has no attribute [create_message]; looking it up raises. *)
Definition create_message_lookup : exn :=
  AttributeError "type object 'ProtocolMessage' has no attribute 'create_message'".

End ProtocolMessage.

Module FileTransferProtocol.

Record t : Type := {
  chunk_size : Z;
  compression : bool;
  protocol_version : string
}.

(** [__init__(chunk_size=ChunkSize.MEDIUM, compression=True)] *)
Definition init (cs : ChunkSize.t) (compression : bool) : t :=
  {| chunk_size := ChunkSize.value cs;
     compression := compression;
     protocol_version := ProtocolVersion.get_version |}.

Definition calculate_checksum (rt : Runtime) (data : bytes) : string :=
  sha256_hexdigest rt data.

Definition split_file (self : t) (file_data : bytes) : result (list bytes) :=
  starts <- range 0 (len file_data) (chunk_size self) ;;
  Ok (map (fun i => slice file_data i (i + chunk_size self)) starts).

Definition reassemble_file (chunks : list bytes) : bytes := List.concat chunks.

Definition compress_chunk (rt : Runtime) (self : t) (chunk : bytes) : result bytes :=
  if compression self
  then Ok (zlib_compress rt chunk (CompressionLevel.value CompressionLevel.MEDIUM))
  else Ok chunk.

(** [try: return zlib.decompress(chunk) / except zlib.error: return chunk] *)
Definition decompress_chunk (rt : Runtime) (self : t) (chunk : bytes) : result bytes :=
  if compression self then
    match zlib_decompress_py rt chunk with
    | Ok d => Ok d
    | Raise (ZlibError _) => Ok chunk
    | Raise e => Raise e
    end
  else Ok chunk.

Definition verify_transfer (rt : Runtime) (original_data received_data : bytes) : bool :=
  String.eqb (calculate_checksum rt original_data)
             (calculate_checksum rt received_data).

End FileTransferProtocol.

(** ** Sockets and the file system

    A connection is seen from one end: [inbox] holds what the peer has
    sent and was not read yet, in the segments in which it arrives, and
    [outbox] the argument of every [sendall], oldest first.  The file
    system is the function [stat] from a path to what is found there; it
    is part of the state, so that a statement can compare it before and
    after a run.  Reading a regular file and writing to an open socket
    are taken to succeed.  Whether a file can be opened for writing is
    for the file system to say: [open_error p] is the exception that
    [open(p, 'wb')] raises ([OSError] when the directory of [p] is
    missing, when [p] is a directory or when permission is denied,
    [ValueError] for a name that holds a NUL), and [None] when the file
    is opened. *)
Module Net.

Inductive node : Type :=
| File (content : bytes)
| Dir.

Record world : Type := {
  stat : string -> option node;
  open_error : string -> option exn;
  inbox : list bytes;
  outbox : list bytes;
  closed : bool;
  active_connections : list Z
}.

Definition M (A : Type) : Type := world -> result A * world.

Definition ret {A} (a : A) : M A := fun w => (Ok a, w).

Definition raise {A} (e : exn) : M A := fun w => (Raise e, w).

Definition bindM {A B} (m : M A) (k : A -> M B) : M B :=
  fun w =>
    match m w with
    | (Ok a, w') => k a w'
    | (Raise e, w') => (Raise e, w')
    end.

Definition lift {A} (r : result A) : M A := fun w => (r, w).

(** [try: m / except Exception as e: h e] *)
Definition try_except {A} (m : M A) (h : exn -> M A) : M A :=
  fun w =>
    match m w with
    | (Ok a, w') => (Ok a, w')
    | (Raise e, w') => h e w'
    end.

(** [try: m / finally: f] *)
Definition try_finally {A} (m : M A) (f : M unit) : M A :=
  fun w =>
    match m w with
    | (r, w') =>
        match f w' with
        | (Ok _, w'') => (r, w'')
        | (Raise e, w'') => (Raise e, w'')
        end
    end.

(** What one [socket.recv(n)] returns: at most [n] bytes of the segment
    that arrived first, and nothing once the peer is done. *)
Definition next_read (n : nat) (pending : list bytes) : bytes :=
  match pending with
  | [] => []
  | seg :: _ => firstn n seg
  end.

Definition after_read (n : nat) (pending : list bytes) : list bytes :=
  match pending with
  | [] => []
  | seg :: more =>
      match skipn n seg with
      | [] => more
      | unread => unread :: more
      end
  end.

(** [socket.recv(n)] *)
Definition recv (n : nat) : M bytes :=
  fun w =>
    (Ok (next_read n (inbox w)),
     {| stat := stat w; open_error := open_error w;
        inbox := after_read n (inbox w); outbox := outbox w;
        closed := closed w; active_connections := active_connections w |}).

(** [socket.sendall(b)] *)
Definition sendall (b : bytes) : M unit :=
  fun w =>
    (Ok tt,
     {| stat := stat w; open_error := open_error w;
        inbox := inbox w; outbox := outbox w ++ [b];
        closed := closed w; active_connections := active_connections w |}).

(** [socket.close()] *)
Definition close : M unit :=
  fun w =>
    (Ok tt,
     {| stat := stat w; open_error := open_error w;
        inbox := inbox w; outbox := outbox w;
        closed := true; active_connections := active_connections w |}).

(** [self.active_connections[client_id] = client_socket] *)
Definition connection_add (client_id : Z) : M unit :=
  fun w =>
    (Ok tt,
     {| stat := stat w; open_error := open_error w;
        inbox := inbox w; outbox := outbox w;
        closed := closed w;
        active_connections :=
          client_id :: filter (fun k => negb (k =? client_id)) (active_connections w) |}).

(** [del self.active_connections[client_id]] *)
Definition connection_del (client_id : Z) : M unit :=
  fun w =>
    (Ok tt,
     {| stat := stat w; open_error := open_error w;
        inbox := inbox w; outbox := outbox w;
        closed := closed w;
        active_connections :=
          filter (fun k => negb (k =? client_id)) (active_connections w) |}).

(** [os.path.exists(p) and os.path.isfile(p)] *)
Definition exists_and_isfile (p : string) : M bool :=
  fun w =>
    (Ok match stat w p with Some (File _) => true | _ => false end, w).

(** [open(p, 'rb').read()], called only where [p] is a regular file. *)
Definition read_file (p : string) : M bytes :=
  fun w =>
    (Ok match stat w p with Some (File c) => c | _ => [] end, w).

(** The same connection after [msgs] were sent on it. *)
Definition sent_more (msgs : list bytes) (w : world) : world :=
  {| stat := stat w; open_error := open_error w;
     inbox := inbox w; outbox := outbox w ++ msgs;
     closed := closed w; active_connections := active_connections w |}.

(** The same connection over another file system. *)
Definition with_stat (st : string -> option node) (w : world) : world :=
  {| stat := st; open_error := open_error w;
     inbox := inbox w; outbox := outbox w;
     closed := closed w; active_connections := active_connections w |}.

(** A computation that consults the file system at [p] at most: run
    over a file system that agrees at [p], it gives the same result and
    the same connection; and it leaves the file system as it found it. *)
Definition reads_only (p : string) {A} (m : M A) : Prop :=
  forall st w,
    st p = stat w p ->
    m (with_stat st w) = (fst (m w), with_stat st (snd (m w)))
    /\ stat (snd (m w)) = stat w.

(** A computation whose only effect is to send: it leaves a connection
    that differs from the one it found by the messages added to [outbox]. *)
Definition sends_only {A} (m : M A) : Prop :=
  forall w, exists sent, snd (m w) = sent_more sent w.

(** [with open(p, 'wb') as f: f.write(data)]: [open] raises what the
    file system says, and nothing is written then; once the file is
    open the write is taken to succeed, and [p] is a regular file that
    holds [data]. *)
Definition write_file (p : string) (data : bytes) : M unit :=
  fun w =>
    match open_error w p with
    | Some e => (Raise e, w)
    | None =>
        (Ok tt,
         {| stat := fun q => if String.eqb q p then Some (File data) else stat w q;
            open_error := open_error w;
            inbox := inbox w; outbox := outbox w;
            closed := closed w; active_connections := active_connections w |})
    end.

(** A bound on the number of reads that empty [pending]: every read that
    returns something takes at least one byte or finishes a segment. *)
Fixpoint pending_size (pending : list bytes) : nat :=
  match pending with
  | [] => 0
  | seg :: more => S (List.length seg + pending_size more)
  end.

(** [for x in xs: body x] *)
Fixpoint for_each {A} (xs : list A) (body : A -> M unit) : M unit :=
  match xs with
  | [] => ret tt
  | x :: xs' => bindM (body x) (fun _ => for_each xs' body)
  end.

End Net.

Import Net.

Declare Scope net_scope.
Delimit Scope net_scope with net.
Notation "x <~ m ;; k" := (Net.bindM m (fun x => k))
  (at level 100, m at next level, right associativity) : net_scope.
Notation "m ;;; k" := (Net.bindM m (fun _ => k))
  (at level 100, right associativity) : net_scope.
Local Open Scope net_scope.

(** ** server.py *)
Module FileShareServer.

Record t : Type := {
  data_dir : string;
  protocol : FileTransferProtocol.t
}.

(** [__init__(..., data_dir="./shared_files")] *)
Definition init (data_dir : string) : t :=
  {| data_dir := data_dir;
     protocol := FileTransferProtocol.init ChunkSize.MEDIUM true |}.

(** [struct.pack('BBI', MessageType.ERROR.value, code, len(error_msg)) + error_msg] *)
Definition error_reply (code : Z) (error_msg : bytes) : result bytes :=
  header <- pack [cB; cB; cI]
                 [MessageType.value MessageType.ERROR; code; len error_msg] ;;
  Ok (header ++ error_msg).

Definition _handle_handshake (rt : Runtime) (self : t) (data : bytes) : M (option bytes) :=
  r <~ lift (ProtocolMessage.create_handshake
               (FileTransferProtocol.protocol_version (protocol self))) ;;
  ret (Some r).

(** Lines 124-126: the name asked for and the path it is resolved to. *)
Definition request_filename (rt : Runtime) (data : bytes) : result string :=
  t <- unpack [cI] (slice data 1 5) ;;
  let filename_len := nth 0 t 0 in
  decode_utf8 rt (slice data 5 (5 + filename_len)).

Definition request_filepath (self : t) (filename : string) : string :=
  Posixpath.join (data_dir self) (Posixpath.basename filename).

Definition _handle_file_request (rt : Runtime) (self : t) (data : bytes)
    : M (option bytes) :=
  try_except
    (filename <~ lift (request_filename rt data) ;;
     let filepath := request_filepath self filename in
     found <~ exists_and_isfile filepath ;;
     if found then
       file_data <~ read_file filepath ;;
       chunks <~ lift (FileTransferProtocol.split_file (protocol self) file_data) ;;
       for_each (enumerate chunks)
         (fun ic =>
            msg <~ lift (ProtocolMessage.create_chunk rt (fst ic) (snd ic)
                           (FileTransferProtocol.compression (protocol self))) ;;
            sendall msg) ;;;
       raise ProtocolMessage.create_message_lookup
     else
       let error_msg := encode_utf8 ("File not found: " ++ filename) in
       r <~ lift (error_reply 2 error_msg) ;;
       ret (Some r))
    (fun e =>
       let error_msg := encode_utf8 (str_of_exn e) in
       r <~ lift (error_reply 3 error_msg) ;;
       ret (Some r)).

Definition _handle_chunk_upload (rt : Runtime) (self : t) (data : bytes)
    : M (option bytes) :=
  try_except
    (parsed <~ lift (ProtocolMessage.parse_chunk rt data) ;;
     let '(chunk_index, payload, compressed) := parsed in
     r <~ lift (pack [cB; cB; cI]
                  [MessageType.value MessageType.CHUNK_ACK; chunk_index; 0]) ;;
     ret (Some r))
    (fun e =>
       let error_msg := encode_utf8 (str_of_exn e) in
       r <~ lift (error_reply 4 error_msg) ;;
       ret (Some r)).

Definition _process_client_request (rt : Runtime) (self : t) : M (option bytes) :=
  try_except
    (data <~ recv 1024 ;;
     match data with
     | [] => ret None
     | b0 :: _ =>
         let msg_type := Z_of_byte b0 in
         if msg_type =? MessageType.value MessageType.HANDSHAKE then
           _handle_handshake rt self data
         else if msg_type =? MessageType.value MessageType.FILE_REQUEST then
           _handle_file_request rt self data
         else if msg_type =? MessageType.value MessageType.CHUNK_DATA then
           _handle_chunk_upload rt self data
         else
           let error_msg := encode_utf8 "Unknown message type" in
           r <~ lift (error_reply 1 error_msg) ;;
           ret (Some r)
     end)
    (fun _ => ret None).

Definition _handle_client (rt : Runtime) (self : t) (client_id : Z) : M unit :=
  try_finally
    (try_except
       (connection_add client_id ;;;
        response <~ _process_client_request rt self ;;
        match response with
        | Some (b :: r) => sendall (b :: r)
        | _ => ret tt
        end)
       (fun _ => ret tt))
    (close ;;; connection_del client_id).

End FileShareServer.

(** ** client.py *)
Module FileShareClient.

Record t : Type := {
  protocol : FileTransferProtocol.t
}.

(** [__init__(host, port, chunk_size=ChunkSize.MEDIUM)] *)
Definition init (cs : ChunkSize.t) : t :=
  {| protocol := FileTransferProtocol.init cs true |}.

Definition _create_file_request (filename : string) : result bytes :=
  let msg_type := MessageType.value MessageType.FILE_REQUEST in
  let filename_bytes := encode_utf8 filename in
  header <- pack [cB; cI] [msg_type; len filename_bytes] ;;
  Ok (header ++ filename_bytes).

Definition _handshake (self : t) : M bool :=
  try_except
    (handshake_msg <~ lift (ProtocolMessage.create_handshake
                              (FileTransferProtocol.protocol_version (protocol self))) ;;
     sendall handshake_msg ;;;
     response <~ recv 1024 ;;
     ret (0 <? len response))
    (fun _ => ret false).

(** The loop of [_send_file]: an exception in one iteration returns
    [False] at once. *)
Fixpoint send_chunks (rt : Runtime) (self : t) (ics : list (Z * bytes)) : M bool :=
  match ics with
  | [] => ret true
  | (i, chunk) :: rest =>
      sent <~ try_except
                (msg <~ lift (ProtocolMessage.create_chunk rt i chunk
                                (FileTransferProtocol.compression (protocol self))) ;;
                 sendall msg ;;;
                 ret true)
                (fun _ => ret false) ;;
      if sent then send_chunks rt self rest else ret false
  end.

Definition _send_file (rt : Runtime) (self : t) (filename : string)
    (file_data : bytes) : M bool :=
  chunks <~ lift (FileTransferProtocol.split_file (protocol self) file_data) ;;
  let checksum := FileTransferProtocol.calculate_checksum rt file_data in
  let total_chunks := len chunks in
  send_chunks rt self (enumerate chunks).

(** The loop of [_receive_file]: read up to 65536 bytes at a time and
    keep what was read, until a read returns nothing.  No timeout is ever
    set on the socket, so the [socket.timeout] branch is not taken.  The
    first argument bounds the number of reads. *)
Fixpoint receive_loop (reads : nat) (chunks : list bytes) : M (list bytes) :=
  match reads with
  | O => ret chunks
  | S reads' =>
      data <~ recv (Z.to_nat 65536) ;;
      match data with
      | [] => ret chunks
      | _ => receive_loop reads' (chunks ++ [data])
      end
  end.

Definition _receive_file (self : t) (output_path : string) : M bool :=
  fun w =>
    try_except
      (chunks <~ receive_loop (S (pending_size (inbox w))) [] ;;
       match chunks with
       | [] => ret false
       | _ =>
           let file_data := List.concat chunks in
           write_file output_path file_data ;;;
           ret true
       end)
      (fun _ => ret false)
      w.

(** [download_file]; [connected] is the value of [self.connected]. *)
Definition download_file (self : t) (connected : bool) (remote_filename : string)
    (local_path : option string) : M bool :=
  if negb connected then ret false
  else
    let local_path :=
      match local_path with
      | None => remote_filename
      | Some path => path
      end in
    try_except
      (request <~ lift (_create_file_request remote_filename) ;;
       sendall request ;;;
       _receive_file self local_path)
      (fun _ => ret false).

End FileShareClient.

(** ** A stand-in runtime for evaluation on concrete inputs

    The codec prefixes one byte and removes it again, which satisfies
    [zlib_lawful]; like [zlib], it rejects the empty buffer.  The digest
    is a placeholder: no function below inspects its value. *)
Module Sample.

Definition compress (data : bytes) (level : Z) : bytes := x78 :: data.

Definition decompress (b : bytes) : option bytes :=
  match b with
  | x78 :: d => Some d
  | _ => None
  end.

Definition runtime : Runtime :=
  {| zlib_compress := compress;
     zlib_decompress := decompress;
     zlib_error_text := fun _ => "Error -3 while decompressing data: incorrect header check"%string;
     unicode_error_text := fun _ => "'utf-8' codec can't decode byte: invalid start byte"%string;
     sha256_hexdigest := fun b => str_of_int (le_value b) |}.

(** A storage directory holding the single file [notes.txt]. *)
Definition notes : bytes := list_byte_of_string "hello".

Definition storage (p : string) : option node :=
  if String.eqb p "./shared_files/notes.txt" then Some (File notes)
  else if String.eqb p "./shared_files" then Some Dir
  else if String.eqb p "./shared_files/" then Some Dir
  else if String.eqb p "./shared_files/.." then Some Dir
  else None.

(** What [open(p, 'wb')] raises in the directory the programs run in:
    there is no directory [nodir], and a directory cannot be opened for
    writing. *)
Definition open_errors (p : string) : option exn :=
  if String.eqb p "nodir/notes.txt"
  then Some (OSError "[Errno 2] No such file or directory: 'nodir/notes.txt'")
  else if String.eqb p "."
  then Some (OSError "[Errno 21] Is a directory: '.'")
  else if String.eqb p "./shared_files"
  then Some (OSError "[Errno 21] Is a directory: './shared_files'")
  else None.

(** A FileRequest in the layout the server reads: the tag, the length
    of the name in [data[1:5]], the name from [data[5]] on. *)
Definition request (name : string) : bytes :=
  x02 :: le_bytes 4 (len (encode_utf8 name)) ++ encode_utf8 name.

(** The content of a file a client uploads. *)
Definition lesson : bytes := list_byte_of_string "lesson".

(** A freshly accepted connection on which [data] has arrived. *)
Definition accepted (data : bytes) : world :=
  {| stat := storage; open_error := open_errors;
     inbox := [data]; outbox := []; closed := false;
     active_connections := [] |}.

Definition server : FileShareServer.t := FileShareServer.init "./shared_files".

Definition client : FileShareClient.t := FileShareClient.init ChunkSize.MEDIUM.

(** What the client puts on the wire when it uploads [lesson], and the
    server's run on a connection on which exactly that has arrived. *)
Definition upload_sent : list bytes :=
  outbox (snd (FileShareClient._send_file runtime client "lesson.txt" lesson
                 (accepted []))).

Definition upload_run : result unit * world :=
  FileShareServer._handle_client runtime server 1 (accepted (List.concat upload_sent)).

(** A name of 1022 bytes, for a file that is not in the storage
    directory; the request for it takes 1027 bytes, three more than one
    read returns.  [long_run] is the server's run on a connection on
    which that request has arrived, [split_run] its run when the request
    for [notes.txtzzz] arrives in two segments. *)
Definition long_name : string :=
  (string_of_list_byte (repeat x61 1009) ++ "/notes.txtzzz")%string.

Definition long_run : result unit * world :=
  FileShareServer._handle_client runtime server 1 (accepted (request long_name)).

Definition split_run : result unit * world :=
  FileShareServer._handle_client runtime server 1
    {| stat := storage; open_error := open_errors;
       inbox := [firstn 14 (request "notes.txtzzz"); skipn 14 (request "notes.txtzzz")];
       outbox := []; closed := false; active_connections := [] |}.

End Sample.

(** ** The wire table of the specification

    These definitions follow the specification's words, not the code:
    the six tags, the size of each fixed header in the layout table, and
    the condition under which the specification calls a buffer
    malformed.  Length fields are read little-endian, as the code writes
    them. *)
Module Spec.

Definition known_tags : list Z := [1; 2; 4; 5; 6; 7].

(** Handshake and FileRequest: tag(1) len(4); ChunkData: tag(1) index(4)
    payloadLen(4) flag(1) originalLen(8); ChunkAck: tag(1) index(4);
    Error: tag(1) code(1) msgLen(4); Complete: tag(1). *)
Definition header_size (tag : Z) : nat :=
  if tag =? 4 then 18
  else if tag =? 6 then 6
  else if tag =? 7 then 1
  else 5.

(** Offset of the declared payload length, for the variants that carry
    a payload. *)
Definition length_field (tag : Z) : option nat :=
  if (tag =? 1) || (tag =? 2) then Some 1%nat
  else if tag =? 4 then Some 5%nat
  else if tag =? 6 then Some 2%nat
  else None.

Definition malformed (buf : bytes) : bool :=
  match buf with
  | [] => true
  | b :: _ =>
      let tag := Z_of_byte b in
      if negb (existsb (Z.eqb tag) known_tags) then true
      else if (List.length buf <? header_size tag)%nat then true
      else
        let remaining := Z.of_nat (List.length buf - header_size tag) in
        match length_field tag with
        | Some off => negb (le_value (firstn 4 (skipn off buf)) =? remaining)
        | None => negb (remaining =? 0)
        end
  end.

End Spec.

(** * Properties *)

(** ** Slices *)
Section Slices.
Context {A : Type}.

Lemma clamp_nonneg (n : nat) (k : Z) :
  0 <= k -> clamp n k = Nat.min (Z.to_nat k) n.
Proof.
  intros Hk. unfold clamp.
  destruct (k <? 0) eqn:E; [apply Z.ltb_lt in E; lia | reflexivity].
Qed.

Lemma clamp_le (n : nat) (k : Z) : (clamp n k <= n)%nat.
Proof.
  unfold clamp. destruct (k <? 0) eqn:E; [apply Z.ltb_lt in E | ]; lia.
Qed.

Lemma slice_length (l : list A) (lo hi : Z) :
  List.length (slice l lo hi)
  = (clamp (List.length l) hi - clamp (List.length l) lo)%nat.
Proof.
  unfold slice. rewrite length_firstn, length_skipn.
  pose proof (clamp_le (List.length l) hi). lia.
Qed.

(** Between non-negative bounds a slice is "drop, then take". *)
Lemma slice_nonneg (l : list A) (lo hi : Z) :
  0 <= lo <= hi ->
  slice l lo hi = firstn (Z.to_nat (hi - lo)) (skipn (Z.to_nat lo) l).
Proof.
  intros [Hlo Hhi]. unfold slice.
  rewrite !clamp_nonneg by lia.
  destruct (Nat.le_gt_cases (List.length l) (Z.to_nat lo)) as [Hout | Hin].
  - rewrite !Nat.min_r by lia.
    rewrite (skipn_all2 l (n := Z.to_nat lo)) by lia.
    rewrite skipn_all. now rewrite !firstn_nil.
  - rewrite (Nat.min_l (Z.to_nat lo)) by lia.
    destruct (Nat.le_gt_cases (List.length l) (Z.to_nat hi)) as [Hfull | Hpart].
    + rewrite Nat.min_r by lia.
      rewrite !firstn_all2; [reflexivity | | ]; rewrite length_skipn; lia.
    + rewrite Nat.min_l by lia. f_equal. lia.
Qed.

Lemma slice_head (x : A) (l : list A) : slice (x :: l) 0 1 = [x].
Proof.
  unfold slice. rewrite !clamp_nonneg by lia. reflexivity.
Qed.

(** [l[1:15]] never has more than fourteen elements. *)
Lemma slice_1_15_short (l : list A) : (List.length (slice l 1 15) <= 14)%nat.
Proof.
  rewrite slice_length, !clamp_nonneg by lia. lia.
Qed.

End Slices.

(** ** [struct] *)

Lemma unpack_wrong_size (fmt : list code) (buf : bytes) :
  List.length buf <> calcsize fmt ->
  unpack fmt buf
  = Raise (StructError ("unpack requires a buffer of "
                          ++ str_of_int (Z.of_nat (calcsize fmt)) ++ " bytes")).
Proof.
  intros H. unfold unpack.
  destruct (List.length buf =? calcsize fmt)%nat eqn:E; [ | reflexivity].
  apply Nat.eqb_eq in E. contradiction.
Qed.

(** A packed sequence that starts with a 'B' field starts with that byte. *)
Lemma pack_leading_byte (fmt : list code) (v : Z) (vs : list Z) (out : bytes) :
  pack (cB :: fmt) (v :: vs) = Ok out ->
  exists rest, out = byte_of_Z (v mod 256) :: rest.
Proof.
  unfold pack. cbn [pack_from].
  destruct (in_range cB v); [ | discriminate].
  change (0 + pad 0 (size cB) + size cB)%nat with 1%nat.
  destruct (pack_from 1 fmt vs) as [rest | e]; cbn [bind]; [ | discriminate].
  intros [= <-]. eauto.
Qed.

(** ** The chunk codec *)

(** [parse_chunk] on a buffer that carries the CHUNK_DATA tag: the header
    slice has at most 14 bytes and ['IBBq'] needs 16. *)
Lemma parse_chunk_tagged (rt : Runtime) (b : byte) (rest : bytes) :
  Z_of_byte b = MessageType.value MessageType.CHUNK_DATA ->
  ProtocolMessage.parse_chunk rt (b :: rest)
  = Raise (StructError "unpack requires a buffer of 16 bytes").
Proof.
  intros Htag. unfold ProtocolMessage.parse_chunk.
  rewrite slice_head. unfold unpack at 1. simpl.
  rewrite Z.add_0_r, Htag. simpl.
  rewrite unpack_wrong_size; [reflexivity | ].
  pose proof (slice_1_15_short (b :: rest)).
  change (calcsize [cI; cB; cB; cq]) with 16%nat. lia.
Qed.

Lemma parse_chunk_other_tag (rt : Runtime) (b : byte) (rest : bytes) :
  Z_of_byte b <> MessageType.value MessageType.CHUNK_DATA ->
  ProtocolMessage.parse_chunk rt (b :: rest)
  = Raise (ValueError ("Invalid message type: " ++ str_of_int (Z_of_byte b))).
Proof.
  intros Htag. unfold ProtocolMessage.parse_chunk.
  rewrite slice_head. unfold unpack at 1. simpl.
  rewrite Z.add_0_r.
  change (MessageType.value MessageType.CHUNK_DATA) with 4 in Htag.
  destruct (Z_of_byte b =? 4) eqn:E.
  - apply Z.eqb_eq in E. contradiction.
  - reflexivity.
Qed.

Lemma parse_chunk_empty (rt : Runtime) :
  ProtocolMessage.parse_chunk rt []
  = Raise (StructError "unpack requires a buffer of 1 bytes").
Proof. reflexivity. Qed.

(** No buffer at all makes [parse_chunk] return. *)
Lemma parse_chunk_never_returns (rt : Runtime) (message : bytes) :
  is_ok (ProtocolMessage.parse_chunk rt message) = false.
Proof.
  destruct message as [ | b rest]; [reflexivity | ].
  destruct (Z.eq_dec (Z_of_byte b) (MessageType.value MessageType.CHUNK_DATA)) as [E | E].
  - now rewrite parse_chunk_tagged.
  - now rewrite parse_chunk_other_tag.
Qed.

(** C1 (the code departs from the claim).  Whatever [create_chunk]
    builds, [parse_chunk] does not give [(index, data, compress)] back: it
    raises [struct.error], because the encoder writes a 24-byte ['BIIBq']
    header while the decoder unpacks ['IBBq'], which needs 16 bytes, from
    the 14-byte slice [message[1:15]]. *)
Theorem parse_chunk_rejects_create_chunk
    (rt : Runtime) (chunk_index : Z) (data : bytes) (compress : bool)
    (message : bytes) :
  ProtocolMessage.create_chunk rt chunk_index data compress = Ok message ->
  ProtocolMessage.parse_chunk rt message
  = Raise (StructError "unpack requires a buffer of 16 bytes").
Proof.
  unfold ProtocolMessage.create_chunk. intros H.
  destruct (pack _ _) as [header | e] eqn:Hpack; simpl in H; [ | discriminate].
  injection H as <-.
  apply pack_leading_byte in Hpack as [rest ->].
  simpl. now apply parse_chunk_tagged.
Qed.

Lemma parse_chunk_rejects_create_chunk_witness :
  ProtocolMessage.create_chunk Sample.runtime 0 Sample.notes false
  = Ok ([x04; x00; x00; x00; x00; x00; x00; x00; x05; x00; x00; x00;
         x00; x00; x00; x00; x05; x00; x00; x00; x00; x00; x00; x00]
          ++ Sample.notes)
  /\ ProtocolMessage.parse_chunk Sample.runtime
       ([x04; x00; x00; x00; x00; x00; x00; x00; x05; x00; x00; x00;
         x00; x00; x00; x00; x05; x00; x00; x00; x00; x00; x00; x00]
          ++ Sample.notes)
     = Raise (StructError "unpack requires a buffer of 16 bytes").
Proof.
  split; [reflexivity | ].
  apply (parse_chunk_rejects_create_chunk Sample.runtime 0 Sample.notes false).
  reflexivity.
Defined.

(** ** Splitting and reassembling *)

(** Consecutive windows of width [s] that reach the end of [d] cover it. *)
Lemma concat_windows {A : Type} (s : nat) :
  (0 < s)%nat ->
  forall (c : nat) (d : list A),
    (List.length d <= c * s)%nat ->
    List.concat (map (fun k => firstn s (skipn (k * s) d)) (seq 0 c)) = d.
Proof.
  intros Hs. induction c as [ | c IH]; intros d Hlen.
  - destruct d; [reflexivity | simpl in Hlen; lia].
  - cbn [seq map List.concat]. rewrite <- seq_shift, map_map.
    rewrite (map_ext _ (fun k => firstn s (skipn (k * s) (skipn s d)))).
    + rewrite IH by (rewrite length_skipn; lia).
      cbn [Nat.mul skipn]. apply firstn_skipn.
    + intros k. rewrite skipn_skipn. do 2 f_equal. lia.
Qed.

Lemma len_slice {A : Type} (l : list A) (lo hi : Z) :
  0 <= lo <= hi ->
  len (slice l lo hi) = Z.min hi (len l) - Z.min lo (len l).
Proof.
  intros H. unfold len. rewrite slice_length, !clamp_nonneg by lia. lia.
Qed.

(** The starting offsets [range(0, n, s)] for a positive step. *)
Lemma range_positive_step (n s : Z) :
  0 < s ->
  range 0 n s
  = Ok (map (fun k => Z.of_nat k * s) (seq 0 (Z.to_nat ((n + s - 1) / s)))).
Proof.
  intros Hs. unfold range.
  destruct (s =? 0) eqn:E0; [apply Z.eqb_eq in E0; lia | ].
  destruct (0 <? s) eqn:E1; [ | apply Z.ltb_ge in E1; lia].
  rewrite Z.sub_0_r. f_equal.
Qed.

Lemma split_file_windows (self : FileTransferProtocol.t) (d : bytes) :
  0 < FileTransferProtocol.chunk_size self ->
  FileTransferProtocol.split_file self d
  = Ok (map (fun k => firstn (Z.to_nat (FileTransferProtocol.chunk_size self))
                        (skipn (k * Z.to_nat (FileTransferProtocol.chunk_size self)) d))
          (seq 0 (Z.to_nat ((len d + FileTransferProtocol.chunk_size self - 1)
                              / FileTransferProtocol.chunk_size self)))).
Proof.
  intros Hs. unfold FileTransferProtocol.split_file.
  set (s := FileTransferProtocol.chunk_size self) in *.
  rewrite range_positive_step by assumption. cbn [bind].
  rewrite map_map. f_equal. apply map_ext. intros k.
  rewrite slice_nonneg by lia. f_equal; [lia | f_equal; lia].
Qed.

(** C2.  With a positive chunk size, [split_file] returns, and
    [reassemble_file] of its chunks is the original data; a 10,000-byte
    input split with chunk size 4096 gives chunks of 4096, 4096 and 1808
    bytes. *)
Theorem reassemble_split_file (self : FileTransferProtocol.t) (d : bytes) :
  0 < FileTransferProtocol.chunk_size self ->
  exists chunks,
    FileTransferProtocol.split_file self d = Ok chunks
    /\ FileTransferProtocol.reassemble_file chunks = d
    /\ (len d = 10000 -> FileTransferProtocol.chunk_size self = 4096 ->
        map len chunks = [4096; 4096; 1808]).
Proof.
  intros Hs. eexists. split; [ | split].
  - apply split_file_windows, Hs.
  - unfold FileTransferProtocol.reassemble_file.
    apply concat_windows; [lia | ].
    set (s := FileTransferProtocol.chunk_size self) in *.
    pose proof (Z.mul_succ_div_gt (len d + s - 1) s Hs) as Hdiv.
    assert (0 <= (len d + s - 1) / s) by (apply Z.div_pos; unfold len; lia).
    unfold len in *. nia.
  - intros Hlen Hsize.
    rewrite Hsize, Hlen.
    change (Z.to_nat ((10000 + 4096 - 1) / 4096)) with 3%nat.
    cbn [seq map].
    assert (Hchunk : forall k, 0 <= k ->
              len (firstn (Z.to_nat 4096) (skipn (Z.to_nat k) d))
              = Z.min (k + 4096) 10000 - Z.min k 10000).
    { intros k Hk. rewrite <- Hlen.
      rewrite <- (len_slice d k (k + 4096)) by lia.
      rewrite slice_nonneg by lia. do 2 f_equal. lia. }
    change (0 * Z.to_nat 4096)%nat with (Z.to_nat 0).
    change (1 * Z.to_nat 4096)%nat with (Z.to_nat 4096).
    change (2 * Z.to_nat 4096)%nat with (Z.to_nat 8192).
    rewrite !Hchunk by lia. reflexivity.
Qed.

Lemma reassemble_split_file_witness :
  0 < FileTransferProtocol.chunk_size (FileTransferProtocol.init ChunkSize.MEDIUM true)
  /\ exists chunks,
       FileTransferProtocol.split_file
         (FileTransferProtocol.init ChunkSize.MEDIUM true) (repeat x61 (Z.to_nat 10000)) = Ok chunks
       /\ FileTransferProtocol.reassemble_file chunks = repeat x61 (Z.to_nat 10000)
       /\ (len (repeat x61 (Z.to_nat 10000)) = 10000 ->
           FileTransferProtocol.chunk_size (FileTransferProtocol.init ChunkSize.MEDIUM true)
           = 4096 ->
           map len chunks = [4096; 4096; 1808]).
Proof.
  split; [reflexivity | ].
  apply (reassemble_split_file (FileTransferProtocol.init ChunkSize.MEDIUM true)
           (repeat x61 (Z.to_nat 10000))).
  reflexivity.
Defined.

(** ** Compression wrappers *)

(** C10.  [decompress_chunk] never raises.  With compression enabled it
    returns what [zlib] returns, and the input itself, unchanged, when
    [zlib] rejects it; with compression disabled it returns the input. *)
Theorem decompress_chunk_total
    (rt : Runtime) (self : FileTransferProtocol.t) (chunk : bytes) :
  FileTransferProtocol.decompress_chunk rt self chunk
  = Ok (if FileTransferProtocol.compression self
        then match zlib_decompress rt chunk with
             | Some d => d
             | None => chunk
             end
        else chunk).
Proof.
  unfold FileTransferProtocol.decompress_chunk, zlib_decompress_py.
  destruct (FileTransferProtocol.compression self); [ | reflexivity].
  destruct (zlib_decompress rt chunk); reflexivity.
Qed.

(** C8, as the code has it.  [decompress_chunk] receives the payload
    only.  With compression enabled, a payload that [zlib] accepts gives
    [zlib]'s output, and a payload that [zlib] rejects comes back as it
    is, with no error. *)
Theorem decompress_chunk_ignores_failure
    (rt : Runtime) (self : FileTransferProtocol.t) (chunk : bytes) :
  FileTransferProtocol.compression self = true ->
  (forall d, zlib_decompress rt chunk = Some d ->
             FileTransferProtocol.decompress_chunk rt self chunk = Ok d)
  /\ (zlib_decompress rt chunk = None ->
      FileTransferProtocol.decompress_chunk rt self chunk = Ok chunk).
Proof.
  intros Hc. unfold FileTransferProtocol.decompress_chunk, zlib_decompress_py.
  rewrite Hc. split.
  - intros d ->. reflexivity.
  - intros ->. reflexivity.
Qed.

Lemma decompress_chunk_ignores_failure_witness :
  FileTransferProtocol.compression (FileTransferProtocol.init ChunkSize.MEDIUM true) = true
  /\ zlib_decompress Sample.runtime [x78; x68; x69] = Some [x68; x69]
  /\ FileTransferProtocol.decompress_chunk Sample.runtime
       (FileTransferProtocol.init ChunkSize.MEDIUM true) [x78; x68; x69]
     = Ok [x68; x69]
  /\ zlib_decompress Sample.runtime [x68; x69] = None
  /\ FileTransferProtocol.decompress_chunk Sample.runtime
       (FileTransferProtocol.init ChunkSize.MEDIUM true) [x68; x69]
     = Ok [x68; x69].
Proof.
  split; [reflexivity | ]. split; [reflexivity | ]. split.
  - apply (decompress_chunk_ignores_failure Sample.runtime
             (FileTransferProtocol.init ChunkSize.MEDIUM true) [x78; x68; x69]);
      reflexivity.
  - split; [reflexivity | ].
    apply (decompress_chunk_ignores_failure Sample.runtime
             (FileTransferProtocol.init ChunkSize.MEDIUM true) [x68; x69]);
      reflexivity.
Defined.

(** C8, as stated, fails.  The five bytes of [Sample.notes] are compressed
    by [compress_chunk] and the payload is cut down to nothing on the
    way; [zlib] rejects the empty payload, and [decompress_chunk] returns
    it, zero bytes long, without raising. *)
Lemma decompress_chunk_silent_on_truncation :
  exists payload,
    FileTransferProtocol.compress_chunk Sample.runtime
      (FileTransferProtocol.init ChunkSize.MEDIUM true) Sample.notes = Ok payload
    /\ len Sample.notes = 5
    /\ zlib_decompress Sample.runtime (firstn 0 payload) = None
    /\ FileTransferProtocol.decompress_chunk Sample.runtime
         (FileTransferProtocol.init ChunkSize.MEDIUM true) (firstn 0 payload)
       = Ok []
    /\ len (@nil byte) <> len Sample.notes.
Proof.
  eexists. split; [reflexivity | ].
  split; [reflexivity | ]. split; [reflexivity | ].
  split; [reflexivity | discriminate].
Qed.

(** C6, as the code has it.  [parse_chunk] raises [struct.error] on the
    empty buffer and on a buffer with the CHUNK_DATA tag that is shorter
    than the fifteen bytes its header slice spans, and [ValueError] on
    every buffer whose first byte is not the CHUNK_DATA tag, whichever of
    the other tags it is. *)
Theorem parse_chunk_failures (rt : Runtime) (message : bytes) :
  (message = [] ->
   ProtocolMessage.parse_chunk rt message
   = Raise (StructError "unpack requires a buffer of 1 bytes"))
  /\ (forall b rest,
        message = b :: rest ->
        Z_of_byte b = MessageType.value MessageType.CHUNK_DATA ->
        (List.length message < 15)%nat ->
        exists text, ProtocolMessage.parse_chunk rt message = Raise (StructError text))
  /\ (forall b rest,
        message = b :: rest ->
        Z_of_byte b <> MessageType.value MessageType.CHUNK_DATA ->
        ProtocolMessage.parse_chunk rt message
        = Raise (ValueError ("Invalid message type: " ++ str_of_int (Z_of_byte b)))).
Proof.
  split; [ | split].
  - intros ->. apply parse_chunk_empty.
  - intros b rest -> Htag _. eexists. now apply parse_chunk_tagged.
  - intros b rest -> Htag. now apply parse_chunk_other_tag.
Qed.

Lemma parse_chunk_failures_witness :
  ProtocolMessage.parse_chunk Sample.runtime []
  = Raise (StructError "unpack requires a buffer of 1 bytes")
  /\ (exists text,
        ProtocolMessage.parse_chunk Sample.runtime [x04; x00; x00; x00; x00]
        = Raise (StructError text))
  /\ Z_of_byte x01 <> MessageType.value MessageType.CHUNK_DATA
  /\ ProtocolMessage.parse_chunk Sample.runtime [x01; x00; x00; x00; x00]
     = Raise (ValueError "Invalid message type: 1").
Proof.
  split; [ | split; [ | split; [discriminate | ]]].
  - apply (proj1 (parse_chunk_failures Sample.runtime [])). reflexivity.
  - apply (proj1 (proj2 (parse_chunk_failures Sample.runtime [x04; x00; x00; x00; x00]))
                 x04 [x00; x00; x00; x00]);
      [reflexivity | reflexivity | cbn; lia].
  - apply (proj2 (proj2 (parse_chunk_failures Sample.runtime [x01; x00; x00; x00; x00]))
                 x01 [x00; x00; x00; x00]);
      [reflexivity | discriminate].
Defined.

(** C6, as stated, fails.  The one-byte Complete message is not malformed
    in the specification's sense (its tag is known, its header is whole
    and nothing follows it), and [parse_chunk] raises on it. *)
Lemma parse_chunk_fails_on_well_formed :
  Spec.malformed [x07] = false
  /\ ProtocolMessage.parse_chunk Sample.runtime [x07]
     = Raise (ValueError "Invalid message type: 7").
Proof.
  split; reflexivity.
Qed.

(** ** Text and bytes *)

Lemma list_byte_of_string_app (a b : string) :
  list_byte_of_string (a ++ b) = list_byte_of_string a ++ list_byte_of_string b.
Proof.
  unfold list_byte_of_string.
  induction a as [ | c a IH]; [reflexivity | ].
  cbn [append list_ascii_of_string map]. cbn [app]. now rewrite <- IH.
Qed.

Lemma encode_utf8_app (a b : string) :
  encode_utf8 (a ++ b) = encode_utf8 a ++ encode_utf8 b.
Proof. apply list_byte_of_string_app. Qed.

Lemma slice_length_le {A : Type} (l : list A) (lo hi : Z) :
  (List.length (slice l lo hi) <= List.length l)%nat.
Proof.
  rewrite slice_length. pose proof (clamp_le (List.length l) hi). lia.
Qed.

(** The name a request carries is made of bytes of the request. *)
Lemma request_filename_bytes (rt : Runtime) (data : bytes) (filename : string) :
  FileShareServer.request_filename rt data = Ok filename ->
  exists n, filename = string_of_list_byte (slice data 5 (5 + n)).
Proof.
  unfold FileShareServer.request_filename, decode_utf8.
  destruct (unpack [cI] (slice data 1 5)) as [t | e]; cbn [bind]; [ | discriminate].
  destruct (utf8_valid _); [ | discriminate].
  intros [= <-]. now exists (nth 0 t 0).
Qed.

Lemma request_filename_short (rt : Runtime) (data : bytes) (filename : string) :
  FileShareServer.request_filename rt data = Ok filename ->
  (List.length (encode_utf8 filename) <= List.length data)%nat.
Proof.
  intros H. apply request_filename_bytes in H as [n ->].
  unfold encode_utf8. rewrite list_byte_of_string_of_list_byte.
  apply slice_length_le.
Qed.

(** ** Replies *)

(** An Error reply is the tag, the code, two padding bytes, the length
    of the text as a 32-bit little-endian integer, and the text. *)
Lemma error_reply_ok (code : Z) (error_msg : bytes) :
  0 <= code <= 255 ->
  len error_msg <= 4294967295 ->
  FileShareServer.error_reply code error_msg
  = Ok ([x06; byte_of_Z (code mod 256); x00; x00]
          ++ le_bytes 4 (len error_msg) ++ error_msg).
Proof.
  intros Hc Hn. unfold FileShareServer.error_reply, pack.
  cbn [pack_from MessageType.value].
  change (in_range cB 6) with true. cbn iota.
  assert (Hcode : in_range cB code = true).
  { unfold in_range. apply andb_true_intro. split; apply Z.leb_le; lia. }
  assert (Hlen : in_range cI (len error_msg) = true).
  { unfold in_range. apply andb_true_intro.
    split; apply Z.leb_le; unfold len in *; lia. }
  rewrite Hcode, Hlen. reflexivity.
Qed.

(** ** One connection, from [accept] to [close] *)

(** Whatever [_process_client_request] answers, [_handle_client] sends
    the answer when it is a non-empty buffer, closes the socket and
    forgets the connection. *)
Lemma handle_client_sends (rt : Runtime) (self : FileShareServer.t) (client_id : Z)
    (w w2 : world) (b : byte) (r : bytes) :
  FileShareServer._process_client_request rt self (snd (connection_add client_id w))
  = (Ok (Some (b :: r)), w2) ->
  exists w',
    FileShareServer._handle_client rt self client_id w = (Ok tt, w')
    /\ stat w' = stat w2
    /\ inbox w' = inbox w2
    /\ outbox w' = outbox w2 ++ [b :: r]
    /\ closed w' = true.
Proof.
  intros H. unfold FileShareServer._handle_client, try_finally, try_except, bindM.
  unfold connection_add in *. cbn [snd] in H. rewrite H.
  cbn. eexists. repeat split.
Qed.

(** The dispatch on the first byte of what [recv(1024)] returned. *)
Lemma process_client_request_dispatch (rt : Runtime) (self : FileShareServer.t)
    (w : world) (b : byte) (rest : bytes) :
  next_read 1024 (inbox w) = b :: rest ->
  FileShareServer._process_client_request rt self w
  = try_except
      (if Z_of_byte b =? 1 then FileShareServer._handle_handshake rt self (b :: rest)
       else if Z_of_byte b =? 2 then FileShareServer._handle_file_request rt self (b :: rest)
       else if Z_of_byte b =? 4 then FileShareServer._handle_chunk_upload rt self (b :: rest)
       else r <~ lift (FileShareServer.error_reply 1 (encode_utf8 "Unknown message type")) ;;
            ret (Some r))
      (fun _ => ret None)
      (snd (recv 1024 w)).
Proof.
  intros H. unfold FileShareServer._process_client_request, try_except, bindM, recv.
  cbn [snd]. rewrite H. reflexivity.
Qed.

Lemma received_bound (w : world) (data : bytes) :
  next_read 1024 (inbox w) = data -> (List.length data <= 1024)%nat.
Proof.
  intros <-. unfold next_read.
  destruct (inbox w) as [ | seg more]; [cbn; lia | ].
  rewrite length_firstn. lia.
Qed.

(** The file-request handler when nothing is found at the resolved path. *)
Lemma handle_file_request_missing (rt : Runtime) (self : FileShareServer.t)
    (data : bytes) (filename : string) (w : world) :
  (List.length data <= 1024)%nat ->
  FileShareServer.request_filename rt data = Ok filename ->
  (forall c, stat w (FileShareServer.request_filepath self filename) <> Some (File c)) ->
  FileShareServer._handle_file_request rt self data w
  = (Ok (Some ([x06; x02; x00; x00]
                 ++ le_bytes 4 (len (encode_utf8 ("File not found: " ++ filename)))
                 ++ encode_utf8 ("File not found: " ++ filename))), w).
Proof.
  intros Hlen Hname Hmissing.
  unfold FileShareServer._handle_file_request, try_except, bindM, lift.
  rewrite Hname. unfold exists_and_isfile.
  destruct (stat w (FileShareServer.request_filepath self filename)) as [[c | ] | ] eqn:Hstat;
    [exfalso; now apply (Hmissing c) | | ];
    (rewrite error_reply_ok; [reflexivity | lia | ]);
    (apply request_filename_short in Hname;
     rewrite encode_utf8_app; unfold len; rewrite length_app;
     change (List.length (encode_utf8 "File not found: ")) with 16%nat; lia).
Qed.

(** What the server answers when the name it decodes from the bytes of
    its one read resolves to no regular file: exactly one message, the
    Error with code 2 and the text "File not found: <name>". *)
Lemma unfound_name_reply (rt : Runtime) (self : FileShareServer.t) (client_id : Z)
    (w : world) (b : byte) (rest : bytes) (filename : string) :
  next_read 1024 (inbox w) = b :: rest ->
  Z_of_byte b = MessageType.value MessageType.FILE_REQUEST ->
  FileShareServer.request_filename rt (b :: rest) = Ok filename ->
  (forall c, stat w (FileShareServer.request_filepath self filename) <> Some (File c)) ->
  exists w',
    FileShareServer._handle_client rt self client_id w = (Ok tt, w')
    /\ outbox w'
       = outbox w
           ++ [[byte_of_Z (MessageType.value MessageType.ERROR); x02; x00; x00]
                 ++ le_bytes 4 (len (encode_utf8 ("File not found: " ++ filename)))
                 ++ encode_utf8 ("File not found: " ++ filename)]
    /\ closed w' = true
    /\ stat w' = stat w.
Proof.
  intros Hrecv Htag Hname Hmissing.
  pose proof (received_bound _ _ Hrecv) as Hlen.
  destruct (handle_client_sends rt self client_id w
              (snd (recv 1024 (snd (connection_add client_id w))))
              x06
              ([x02; x00; x00]
                 ++ le_bytes 4 (len (encode_utf8 ("File not found: " ++ filename)))
                 ++ encode_utf8 ("File not found: " ++ filename)))
    as (w' & Hrun & Hstat & _ & Hout & Hclosed).
  - rewrite (process_client_request_dispatch rt self _ b rest) by exact Hrecv.
    rewrite Htag. cbn [MessageType.value Z.eqb Pos.eqb].
    unfold try_except.
    rewrite (handle_file_request_missing rt self (b :: rest) filename);
      [reflexivity | exact Hlen | exact Hname | exact Hmissing].
  - exists w'. repeat split; assumption.
Qed.

(** ** Path resolution *)

Lemma rfind_lower_bound (s : string) (c : ascii) : -1 <= Posixpath.rfind s c.
Proof.
  induction s as [ | a r IH]; cbn [Posixpath.rfind]; [lia | ].
  destruct (0 <=? Posixpath.rfind r c) eqn:E; [apply Z.leb_le in E; lia | ].
  destruct (Ascii.eqb a c); lia.
Qed.

(** What follows the last separator holds no separator; a string without
    any has [rfind] equal to [-1]. *)
Lemma rfind_sep_spec (p : string) :
  (0 <= Posixpath.rfind p Posixpath.sep ->
   Posixpath.has_sep
     (Posixpath.drop (Z.to_nat (Posixpath.rfind p Posixpath.sep + 1)) p) = false)
  /\ (Posixpath.rfind p Posixpath.sep < 0 -> Posixpath.has_sep p = false).
Proof.
  induction p as [ | a r [IHpos IHneg]]; cbn [Posixpath.rfind Posixpath.has_sep].
  - split; [lia | reflexivity].
  - pose proof (rfind_lower_bound r Posixpath.sep) as Hlow.
    destruct (0 <=? Posixpath.rfind r Posixpath.sep) eqn:E.
    + apply Z.leb_le in E. split; [intros _ | lia].
      replace (Z.to_nat (Posixpath.rfind r Posixpath.sep + 1 + 1))
        with (S (Z.to_nat (Posixpath.rfind r Posixpath.sep + 1))) by lia.
      cbn [Posixpath.drop]. now apply IHpos.
    + apply Z.leb_gt in E. destruct (Ascii.eqb a Posixpath.sep) eqn:Ea.
      * split; [intros _ | lia]. cbn. now apply IHneg.
      * split; [lia | intros _]. cbn [orb]. now apply IHneg.
Qed.

Lemma basename_no_sep (p : string) :
  Posixpath.has_sep (Posixpath.basename p) = false.
Proof.
  unfold Posixpath.basename.
  destruct (rfind_sep_spec p) as [Hpos Hneg].
  destruct (Z.le_gt_cases 0 (Posixpath.rfind p Posixpath.sep)) as [H | H].
  - now apply Hpos.
  - pose proof (rfind_lower_bound p Posixpath.sep).
    replace (Posixpath.rfind p Posixpath.sep) with (-1) by lia.
    cbn. apply Hneg. lia.
Qed.

Lemma drop_suffix (n : nat) (p : string) :
  exists dirs, p = (dirs ++ Posixpath.drop n p)%string.
Proof.
  revert p. induction n as [ | n IH]; intros p.
  - now exists EmptyString.
  - destruct p as [ | a r]; [now exists EmptyString | ].
    destruct (IH r) as [dirs Hd]. exists (String a dirs).
    cbn [Posixpath.drop append]. now rewrite <- Hd.
Qed.

Lemma join_without_sep (a name : string) :
  Posixpath.has_sep name = false ->
  Posixpath.join a name = (a ++ name)%string
  \/ Posixpath.join a name = (a ++ String Posixpath.sep name)%string.
Proof.
  intros H. unfold Posixpath.join.
  assert (Hstart : Posixpath.startswith_sep name = false).
  { destruct name as [ | c r]; [reflexivity | ].
    cbn in H |- *. now apply orb_false_elim in H as [-> _]. }
  rewrite Hstart. destruct (_ || _)%bool; auto.
Qed.

(** Closure of [reads_only] under the constructions of the monad. *)
Section ReadsOnly.
Variable p : string.

Lemma reads_only_ret {A} (a : A) : reads_only p (ret a).
Proof. intros st w _. split; reflexivity. Qed.

Lemma reads_only_raise {A} (e : exn) : reads_only p (@raise A e).
Proof. intros st w _. split; reflexivity. Qed.

Lemma reads_only_lift {A} (r : result A) : reads_only p (lift r).
Proof. intros st w _. split; reflexivity. Qed.

Lemma reads_only_sendall (b : bytes) : reads_only p (sendall b).
Proof. intros st w _. split; reflexivity. Qed.

Lemma reads_only_exists_and_isfile : reads_only p (exists_and_isfile p).
Proof.
  intros st w H. unfold exists_and_isfile. cbn. rewrite H. split; reflexivity.
Qed.

Lemma reads_only_read_file : reads_only p (read_file p).
Proof.
  intros st w H. unfold read_file. cbn. rewrite H. split; reflexivity.
Qed.

Lemma reads_only_bindM {A B} (m : M A) (k : A -> M B) :
  reads_only p m -> (forall a, reads_only p (k a)) -> reads_only p (bindM m k).
Proof.
  intros Hm Hk st w H. unfold bindM.
  destruct (Hm st w H) as [-> Hstat].
  destruct (m w) as [[a | e] w1]; cbn [fst snd] in *.
  - destruct (Hk a st w1) as [-> Hstat']; [now rewrite Hstat | ].
    split; [reflexivity | congruence].
  - split; [reflexivity | assumption].
Qed.

Lemma reads_only_try_except {A} (m : M A) (h : exn -> M A) :
  reads_only p m -> (forall e, reads_only p (h e)) -> reads_only p (try_except m h).
Proof.
  intros Hm Hh st w H. unfold try_except.
  destruct (Hm st w H) as [-> Hstat].
  destruct (m w) as [[a | e] w1]; cbn [fst snd] in *.
  - split; [reflexivity | assumption].
  - destruct (Hh e st w1) as [-> Hstat']; [now rewrite Hstat | ].
    split; [reflexivity | congruence].
Qed.

Lemma reads_only_for_each {A} (xs : list A) (body : A -> M unit) :
  (forall x, reads_only p (body x)) -> reads_only p (for_each xs body).
Proof.
  intros Hbody. induction xs as [ | x xs IH]; cbn [for_each].
  - apply reads_only_ret.
  - apply reads_only_bindM; [apply Hbody | intros _; exact IH].
Qed.

Lemma reads_only_if {A} (c : bool) (m1 m2 : M A) :
  reads_only p m1 -> reads_only p m2 -> reads_only p (if c then m1 else m2).
Proof. destruct c; auto. Qed.

End ReadsOnly.

Create HintDb reads_only.
#[export] Hint Resolve reads_only_ret reads_only_raise reads_only_lift
  reads_only_sendall reads_only_exists_and_isfile reads_only_read_file
  reads_only_bindM reads_only_try_except reads_only_for_each reads_only_if
  : reads_only.

(** The file-request handler looks at the file system at the resolved
    path and nowhere else. *)
Lemma handle_file_request_reads_one_path (rt : Runtime) (self : FileShareServer.t)
    (data : bytes) (filename : string) :
  FileShareServer.request_filename rt data = Ok filename ->
  reads_only (FileShareServer.request_filepath self filename)
    (FileShareServer._handle_file_request rt self data).
Proof.
  intros Hname. unfold FileShareServer._handle_file_request. rewrite Hname.
  change (bindM (lift (Ok filename)) ?k) with (k filename). cbv beta.
  apply reads_only_try_except; [ | auto with reads_only].
  apply reads_only_bindM; [auto with reads_only | intros found].
  apply reads_only_if; auto 8 with reads_only.
Qed.



(** ** Handshake *)

(** C5, as the code has it.  A message that starts with the HANDSHAKE tag
    is answered with the server's own Handshake, version 1.0.0, whatever
    follows the tag: the advertised version is not read.  The reply is
    the only message sent, the connection is closed after it, and what
    the peer sent beyond the first 1024 bytes is left unread. *)
Theorem handshake_always_answered (rt : Runtime) (data_dir : string) (client_id : Z)
    (w : world) (b : byte) (rest : bytes) :
  next_read 1024 (inbox w) = b :: rest ->
  Z_of_byte b = MessageType.value MessageType.HANDSHAKE ->
  exists w',
    FileShareServer._handle_client rt (FileShareServer.init data_dir) client_id w
    = (Ok tt, w')
    /\ outbox w'
       = outbox w
           ++ [[byte_of_Z (MessageType.value MessageType.HANDSHAKE)]
                 ++ le_bytes 4 (len (encode_utf8 ProtocolVersion.get_version))
                 ++ encode_utf8 ProtocolVersion.get_version]
    /\ closed w' = true
    /\ inbox w' = after_read 1024 (inbox w)
    /\ stat w' = stat w.
Proof.
  intros Hrecv Htag.
  destruct (handle_client_sends rt (FileShareServer.init data_dir) client_id w
              (snd (recv 1024 (snd (connection_add client_id w))))
              x01 (le_bytes 4 5 ++ encode_utf8 ProtocolVersion.get_version))
    as (w' & Hrun & Hstat & Hin & Hout & Hclosed).
  - rewrite (process_client_request_dispatch rt _ _ b rest) by exact Hrecv.
    rewrite Htag. reflexivity.
  - exists w'. repeat split; assumption.
Qed.

Lemma handshake_always_answered_witness :
  exists w',
    FileShareServer._handle_client Sample.runtime (FileShareServer.init "./shared_files") 1
      (Sample.accepted (x01 :: le_bytes 4 5 ++ list_byte_of_string "1.0.0"))
    = (Ok tt, w')
    /\ outbox w' = [[x01; x05; x00; x00; x00] ++ list_byte_of_string "1.0.0"]
    /\ closed w' = true
    /\ inbox w' = []
    /\ stat w' = Sample.storage.
Proof.
  apply (handshake_always_answered Sample.runtime "./shared_files" 1
           (Sample.accepted (x01 :: le_bytes 4 5 ++ list_byte_of_string "1.0.0"))
           x01 (le_bytes 4 5 ++ list_byte_of_string "1.0.0"));
    reflexivity.
Defined.

(** C5, as stated, fails.  A client advertises version 2.0.0, whose major
    number differs from the server's; the server's only reply is its
    Handshake for 1.0.0, a message that starts with the HANDSHAKE tag and
    not with the ERROR tag. *)
Lemma handshake_major_mismatch_accepted :
  exists request reply w',
    ProtocolMessage.create_handshake (ProtocolVersion.format_version 2 0 0) = Ok request
    /\ 2 <> ProtocolVersion.MAJOR
    /\ FileShareServer._handle_client Sample.runtime Sample.server 1
         (Sample.accepted request) = (Ok tt, w')
    /\ outbox w' = [reply]
    /\ ProtocolMessage.create_handshake ProtocolVersion.get_version = Ok reply
    /\ map Z_of_byte (firstn 1 reply) = [MessageType.value MessageType.HANDSHAKE]
    /\ map Z_of_byte (firstn 1 reply) <> [MessageType.value MessageType.ERROR].
Proof.
  do 3 eexists.
  split; [reflexivity | ]. split; [discriminate | ].
  split; [reflexivity | ]. split; [reflexivity | ].
  split; [reflexivity | ]. split; [reflexivity | discriminate].
Qed.

(** ** Upload *)

(** C3, as the code has it.  A message that starts with the CHUNK_DATA tag
    is handed to [parse_chunk], and the server answers with one message:
    an acknowledgement that starts with the CHUNK_ACK tag, or an Error
    with code 4.  Then it closes the connection, whatever else the peer
    has sent left unread.  The file system is as it was. *)
Theorem chunk_upload_single_reply (rt : Runtime) (self : FileShareServer.t)
    (client_id : Z) (w : world) (b : byte) (rest : bytes) :
  next_read 1024 (inbox w) = b :: rest ->
  Z_of_byte b = MessageType.value MessageType.CHUNK_DATA ->
  exists w' reply,
    FileShareServer._handle_client rt self client_id w = (Ok tt, w')
    /\ outbox w' = outbox w ++ [reply]
    /\ (map Z_of_byte (firstn 1 reply) = [MessageType.value MessageType.CHUNK_ACK]
        \/ map Z_of_byte (firstn 2 reply) = [MessageType.value MessageType.ERROR; 4])
    /\ stat w' = stat w
    /\ inbox w' = after_read 1024 (inbox w)
    /\ closed w' = true.
Proof.
  intros Hrecv Htag.
  destruct (handle_client_sends rt self client_id w
              (snd (recv 1024 (snd (connection_add client_id w))))
              x06
              ([x04; x00; x00] ++ le_bytes 4 36
                 ++ encode_utf8 "unpack requires a buffer of 16 bytes"))
    as (w' & Hrun & Hstat & Hin & Hout & Hclosed).
  - rewrite (process_client_request_dispatch rt self _ b rest) by exact Hrecv.
    rewrite Htag. cbn [MessageType.value Z.eqb Pos.eqb].
    unfold FileShareServer._handle_chunk_upload, try_except.
    unfold bindM at 1. unfold lift at 1.
    rewrite parse_chunk_tagged by exact Htag. reflexivity.
  - exists w'. eexists. split; [exact Hrun | ]. split; [exact Hout | ].
    split; [right; reflexivity | ]. repeat split; assumption.
Qed.

Lemma chunk_upload_single_reply_witness :
  exists w' reply,
    FileShareServer._handle_client Sample.runtime Sample.server 1
      (Sample.accepted (x04 :: repeat x00 23)) = (Ok tt, w')
    /\ outbox w' = [reply]
    /\ (map Z_of_byte (firstn 1 reply) = [5]
        \/ map Z_of_byte (firstn 2 reply) = [6; 4])
    /\ stat w' = Sample.storage
    /\ inbox w' = []
    /\ closed w' = true.
Proof.
  apply (chunk_upload_single_reply Sample.runtime Sample.server 1
           (Sample.accepted (x04 :: repeat x00 23)) x04 (repeat x00 23));
    reflexivity.
Defined.

(** C3, as stated, fails.  The client uploads the six bytes of
    [Sample.lesson] with [_send_file], which puts one chunk message on
    the wire; the server reads it and runs the connection to its end.
    The file system is then what it was, no path holds the uploaded
    bytes, and the only message the server sent starts with the ERROR
    tag, not with the COMPLETE tag. *)
Lemma upload_is_not_persisted :
  ProtocolMessage.create_chunk Sample.runtime 0 Sample.lesson true
  = Ok (List.concat Sample.upload_sent)
  /\ fst Sample.upload_run = Ok tt
  /\ stat (snd Sample.upload_run) = Sample.storage
  /\ (forall p, stat (snd Sample.upload_run) p <> Some (File Sample.lesson))
  /\ map (fun m => map Z_of_byte (firstn 1 m)) (outbox (snd Sample.upload_run))
     = [[MessageType.value MessageType.ERROR]]
  /\ closed (snd Sample.upload_run) = true.
Proof.
  assert (Hstat : stat (snd Sample.upload_run) = Sample.storage) by reflexivity.
  split; [reflexivity | ]. split; [reflexivity | ]. split; [exact Hstat | ].
  split; [ | split; reflexivity].
  intros p. rewrite Hstat. unfold Sample.storage.
  repeat match goal with
         | |- context [String.eqb p ?s] => destruct (String.eqb p s)
         end; discriminate.
Qed.

(** ** Download *)

Lemma length_encode_utf8 (t : string) :
  List.length (encode_utf8 t) = String.length t.
Proof.
  unfold encode_utf8, list_byte_of_string. rewrite length_map.
  induction t as [ | c t IH]; [reflexivity | ].
  cbn [list_ascii_of_string List.length String.length]. now rewrite IH.
Qed.

(** Whatever [struct.pack] raises, its text is short. *)
Lemma pack_from_error_short (fmt : list code) :
  forall (off : nat) (vs : list Z) (e : exn),
    pack_from off fmt vs = Raise e ->
    (String.length (str_of_exn e) <= 80)%nat.
Proof.
  induction fmt as [ | c fmt IH]; intros off vs e H.
  - destruct vs; [discriminate | ].
    injection H as <-. cbn. lia.
  - destruct vs as [ | v vs]; [injection H as <-; cbn; lia | ].
    cbn [pack_from] in H. destruct (in_range c v).
    + destruct (pack_from _ fmt vs) as [out | e'] eqn:Hrest; [discriminate | ].
      cbn [bind] in H. injection H as <-. exact (IH _ _ _ Hrest).
    + injection H as <-. unfold range_text.
      destruct c; repeat match goal with
                         | |- context [if ?b then _ else _] => destruct b
                         end; cbn; lia.
Qed.

Lemma create_chunk_error_short (rt : Runtime) (i : Z) (d : bytes) (c : bool) (e : exn) :
  ProtocolMessage.create_chunk rt i d c = Raise e ->
  (String.length (str_of_exn e) <= 80)%nat.
Proof.
  unfold ProtocolMessage.create_chunk, pack.
  destruct (pack_from _ _ _) as [header | e'] eqn:H; [discriminate | ].
  cbn [bind]. intros [= <-]. exact (pack_from_error_short _ _ _ _ H).
Qed.

(** Sequencing, step by step. *)
Lemma bindM_ok {A B} (m : M A) (k : A -> M B) (w w' : world) (a : A) :
  m w = (Ok a, w') -> bindM m k w = k a w'.
Proof. intros H. unfold bindM. now rewrite H. Qed.

Lemma bindM_raise {A B} (m : M A) (k : A -> M B) (w w' : world) (e : exn) :
  m w = (Raise e, w') -> bindM m k w = (Raise e, w').
Proof. intros H. unfold bindM. now rewrite H. Qed.

Lemma try_except_raise {A} (m : M A) (h : exn -> M A) (w w' : world) (e : exn) :
  m w = (Raise e, w') -> try_except m h w = h e w'.
Proof. intros H. unfold try_except. now rewrite H. Qed.

(** The loop that sends the chunks: it sends the messages of a prefix of
    the chunks, in order, and either reaches the end or stops at a chunk
    for which [create_chunk] raises. *)
Lemma send_loop_outcome (rt : Runtime) (compress : bool) (ics : list (Z * bytes)) :
  forall w,
  exists sent r,
    for_each ics
      (fun ic =>
         msg <~ lift (ProtocolMessage.create_chunk rt (fst ic) (snd ic) compress) ;;
         sendall msg) w
    = (r, sent_more sent w)
    /\ Forall2 (fun ic m => ProtocolMessage.create_chunk rt (fst ic) (snd ic) compress = Ok m)
         (firstn (List.length sent) ics) sent
    /\ ((r = Ok tt /\ List.length sent = List.length ics)
        \/ (exists e, r = Raise e
                      /\ (String.length (str_of_exn e) <= 80)%nat
                      /\ (List.length sent < List.length ics)%nat)).
Proof.
  induction ics as [ | ic ics IH]; intros w.
  - exists [], (Ok tt). split; [ | split; [constructor | left; split; reflexivity]].
    destruct w. cbn. unfold sent_more. cbn. now rewrite app_nil_r.
  - cbn [for_each].
    destruct (ProtocolMessage.create_chunk rt (fst ic) (snd ic) compress)
      as [msg | e] eqn:Hmsg.
    + destruct (IH (sent_more [msg] w)) as (sent & r & Hrun & Hall & Hend).
      exists (msg :: sent), r. split; [ | split].
      * rewrite (bindM_ok _ _ w (sent_more [msg] w) tt).
        -- rewrite Hrun. unfold sent_more. cbn. now rewrite <- app_assoc.
        -- now rewrite (bindM_ok _ _ w w msg).
      * cbn [List.length firstn]. now constructor.
      * destruct Hend as [[-> Hlen] | (e & -> & Hshort & Hlt)].
        -- left. split; [reflexivity | cbn; lia].
        -- right. exists e. repeat split; [exact Hshort | cbn; lia].
    + exists [], (Raise e). split; [ | split; [constructor | right]].
      * rewrite (bindM_raise _ _ w w e).
        -- destruct w. unfold sent_more. cbn. now rewrite app_nil_r.
        -- now rewrite (bindM_raise _ _ w w e).
      * exists e. repeat split; [ | cbn; lia].
        exact (create_chunk_error_short _ _ _ _ _ Hmsg).
Qed.

Lemma length_enumerate {A : Type} (l : list A) :
  List.length (enumerate l) = List.length l.
Proof.
  unfold enumerate. rewrite length_combine, length_map, length_seq. lia.
Qed.

Lemma error_reply_short_text (code : Z) (text : string) :
  0 <= code <= 255 ->
  (String.length text <= 80)%nat ->
  FileShareServer.error_reply code (encode_utf8 text)
  = Ok ([x06; byte_of_Z (code mod 256); x00; x00]
          ++ le_bytes 4 (len (encode_utf8 text)) ++ encode_utf8 text).
Proof.
  intros Hc Ht. apply error_reply_ok; [exact Hc | ].
  unfold len. rewrite length_encode_utf8. lia.
Qed.

(** The file-request handler when the resolved path is a regular file:
    chunk messages for a prefix of the chunks go out, in order, and the
    answer is an Error with code 3.  When every chunk went out, the text
    is that of the failed lookup of [create_message]. *)
Lemma handle_file_request_found (rt : Runtime) (data_dir : string)
    (data : bytes) (filename : string) (c : bytes) (w : world) :
  FileShareServer.request_filename rt data = Ok filename ->
  stat w (FileShareServer.request_filepath (FileShareServer.init data_dir) filename)
  = Some (File c) ->
  exists chunks sent text,
    FileTransferProtocol.split_file
      (FileShareServer.protocol (FileShareServer.init data_dir)) c = Ok chunks
    /\ FileShareServer._handle_file_request rt (FileShareServer.init data_dir) data w
       = (Ok (Some ([x06; x03; x00; x00]
                      ++ le_bytes 4 (len (encode_utf8 text)) ++ encode_utf8 text)),
          sent_more sent w)
    /\ Forall2 (fun ic m => ProtocolMessage.create_chunk rt (fst ic) (snd ic) true = Ok m)
         (firstn (List.length sent) (enumerate chunks)) sent
    /\ (List.length sent = List.length chunks ->
        text = str_of_exn ProtocolMessage.create_message_lookup).
Proof.
  intros Hname Hstat.
  set (self := FileShareServer.init data_dir) in *.
  assert (Hex : exists chunks,
             FileTransferProtocol.split_file (FileShareServer.protocol self) c = Ok chunks)
    by (eexists; now apply split_file_windows).
  destruct Hex as [chunks Hsplit]. exists chunks.
  destruct (send_loop_outcome rt true (enumerate chunks) w)
    as (sent & r & Hrun & Hall & Hend).
  exists sent.
  assert (Hbody :
    forall e,
      (r = Ok tt -> e = ProtocolMessage.create_message_lookup) ->
      (forall e', r = Raise e' -> e = e') ->
      (String.length (str_of_exn e) <= 80)%nat ->
      FileShareServer._handle_file_request rt self data w
      = (Ok (Some ([x06; x03; x00; x00]
                     ++ le_bytes 4 (len (encode_utf8 (str_of_exn e)))
                     ++ encode_utf8 (str_of_exn e))),
         sent_more sent w)).
  { intros e Hok Herr Hshort.
    unfold FileShareServer._handle_file_request.
    rewrite (try_except_raise _ _ w (sent_more sent w) e).
    - rewrite (bindM_ok _ _ (sent_more sent w) (sent_more sent w)
                 ([x06; x03; x00; x00]
                    ++ le_bytes 4 (len (encode_utf8 (str_of_exn e)))
                    ++ encode_utf8 (str_of_exn e))); [reflexivity | ].
      unfold lift. now rewrite error_reply_short_text by (exact Hshort || lia).
    - rewrite (bindM_ok _ _ w w filename) by (unfold lift; now rewrite Hname).
      rewrite (bindM_ok _ _ w w true)
        by (unfold exists_and_isfile; now rewrite Hstat).
      rewrite (bindM_ok _ _ w w c) by (unfold read_file; now rewrite Hstat).
      rewrite (bindM_ok _ _ w w chunks) by (unfold lift; now rewrite Hsplit).
      destruct r as [[] | e'].
      + rewrite (bindM_ok _ _ w (sent_more sent w) tt) by exact Hrun.
        now rewrite (Hok eq_refl).
      + rewrite (bindM_raise _ _ w (sent_more sent w) e') by exact Hrun.
        now rewrite (Herr e' eq_refl). }
  destruct Hend as [[-> Hlen] | (e & -> & Hshort & Hlt)].
  - exists (str_of_exn ProtocolMessage.create_message_lookup).
    split; [exact Hsplit | ]. split; [ | split; [exact Hall | reflexivity]].
    apply Hbody; [reflexivity | discriminate | cbn; lia].
  - exists (str_of_exn e).
    split; [exact Hsplit | ]. split; [ | split; [exact Hall | ]].
    + apply Hbody; [discriminate | now intros e' [= <-] | exact Hshort].
    + intros Hlen. rewrite length_enumerate in Hlt. lia.
Qed.

(** C4 (the code departs from the claim).  When the requested name
    resolves to a regular file, the server splits it and sends chunk
    messages with indices 0, 1, 2, ... in this order; what follows them is
    never a Complete message but an Error with code 3.  When all chunks
    went out, its text is that of the [AttributeError] raised by the
    lookup of [ProtocolMessage.create_message], which does not exist. *)
Theorem download_ends_with_error (rt : Runtime) (data_dir : string) (client_id : Z)
    (w : world) (b : byte) (rest : bytes) (filename : string) (c : bytes) :
  next_read 1024 (inbox w) = b :: rest ->
  Z_of_byte b = MessageType.value MessageType.FILE_REQUEST ->
  FileShareServer.request_filename rt (b :: rest) = Ok filename ->
  stat w (FileShareServer.request_filepath (FileShareServer.init data_dir) filename)
  = Some (File c) ->
  exists w' chunks sent text,
    FileShareServer._handle_client rt (FileShareServer.init data_dir) client_id w
    = (Ok tt, w')
    /\ FileTransferProtocol.split_file
         (FileShareServer.protocol (FileShareServer.init data_dir)) c = Ok chunks
    /\ outbox w'
       = outbox w ++ sent
           ++ [[byte_of_Z (MessageType.value MessageType.ERROR); x03; x00; x00]
                 ++ le_bytes 4 (len (encode_utf8 text)) ++ encode_utf8 text]
    /\ Forall2 (fun ic m => ProtocolMessage.create_chunk rt (fst ic) (snd ic) true = Ok m)
         (firstn (List.length sent) (enumerate chunks)) sent
    /\ (List.length sent = List.length chunks ->
        text = "type object 'ProtocolMessage' has no attribute 'create_message'"%string)
    /\ closed w' = true.
Proof.
  intros Hrecv Htag Hname Hstat.
  destruct (handle_file_request_found rt data_dir (b :: rest) filename c
              (snd (recv 1024 (snd (connection_add client_id w)))) Hname Hstat)
    as (chunks & sent & text & Hsplit & Hhandler & Hall & Htext).
  destruct (handle_client_sends rt (FileShareServer.init data_dir) client_id w
              (sent_more sent (snd (recv 1024 (snd (connection_add client_id w)))))
              x06
              ([x03; x00; x00] ++ le_bytes 4 (len (encode_utf8 text)) ++ encode_utf8 text))
    as (w' & Hrun & _ & _ & Hout & Hclosed).
  - rewrite (process_client_request_dispatch rt _ _ b rest) by exact Hrecv.
    rewrite Htag. cbn [MessageType.value Z.eqb Pos.eqb].
    unfold try_except at 1. now rewrite Hhandler.
  - exists w', chunks, sent, text.
    split; [exact Hrun | ]. split; [exact Hsplit | ].
    split; [ | split; [exact Hall | split; [exact Htext | exact Hclosed]]].
    rewrite Hout. cbn [outbox sent_more recv connection_add snd].
    now rewrite <- app_assoc.
Qed.

Lemma download_ends_with_error_witness :
  outbox (snd (FileShareServer._handle_client Sample.runtime Sample.server 1
                 (Sample.accepted (Sample.request "notes.txt"))))
  = [[x04; x00; x00; x00; x00; x00; x00; x00; x06; x00; x00; x00;
      x01; x00; x00; x00; x05; x00; x00; x00; x00; x00; x00; x00; x78]
       ++ Sample.notes;
     [x06; x03; x00; x00; x3f; x00; x00; x00]
       ++ list_byte_of_string
            "type object 'ProtocolMessage' has no attribute 'create_message'"]
  /\ exists w' chunks sent text,
       FileShareServer._handle_client Sample.runtime Sample.server 1
         (Sample.accepted (Sample.request "notes.txt")) = (Ok tt, w')
       /\ FileTransferProtocol.split_file
            (FileShareServer.protocol Sample.server) Sample.notes = Ok chunks
       /\ outbox w'
          = [] ++ sent
              ++ [[x06; x03; x00; x00]
                    ++ le_bytes 4 (len (encode_utf8 text)) ++ encode_utf8 text]
       /\ Forall2 (fun ic m =>
                     ProtocolMessage.create_chunk Sample.runtime (fst ic) (snd ic) true = Ok m)
            (firstn (List.length sent) (enumerate chunks)) sent
       /\ (List.length sent = List.length chunks ->
           text = "type object 'ProtocolMessage' has no attribute 'create_message'"%string)
       /\ closed w' = true.
Proof.
  split; [reflexivity | ].
  apply (download_ends_with_error Sample.runtime "./shared_files" 1
           (Sample.accepted (Sample.request "notes.txt"))
           x02 (le_bytes 4 9 ++ list_byte_of_string "notes.txt") "notes.txt" Sample.notes);
    reflexivity.
Defined.

(** The request that [client.py] builds packs ['BI'], which puts three
    padding bytes after the tag; the server takes the length from
    [data[1:5]] and the name from [data[5]] on.  The name the server sees
    therefore starts with the three high bytes of the length, and a file
    asked for by the bundled client is looked up under that name. *)
Lemma client_request_is_misread :
  exists request,
    FileShareClient._create_file_request "notes.txt" = Ok request
    /\ FileShareServer.request_filename Sample.runtime request
       = Ok (String zero (String zero (String zero "notes.txt")))
    /\ Sample.storage
         (FileShareServer.request_filepath Sample.server
            (String zero (String zero (String zero "notes.txt"))))
       = None.
Proof.
  eexists. repeat split; reflexivity.
Qed.

(** * Further properties of the code *)

(** ** [struct]: packing and unpacking are inverse *)

Lemma Z_of_byte_of_Z (v : Z) : Z_of_byte (byte_of_Z v) = v mod 256.
Proof.
  unfold Z_of_byte, byte_of_Z.
  pose proof (Z.mod_pos_bound v 256 eq_refl) as Hb.
  destruct (Byte.of_N (Z.to_N (v mod 256))) as [b | ] eqn:E.
  - apply Byte.to_of_N in E. rewrite E. apply Z2N.id. lia.
  - apply Byte.of_N_None_iff in E. lia.
Qed.

Lemma length_le_bytes (n : nat) (v : Z) : List.length (le_bytes n v) = n.
Proof.
  revert v. induction n as [ | n IH]; intros v; [reflexivity | ].
  cbn [le_bytes List.length]. now rewrite IH.
Qed.

Lemma le_value_le_bytes (n : nat) (v : Z) :
  le_value (le_bytes n v) = v mod 256 ^ Z.of_nat n.
Proof.
  revert v. induction n as [ | n IH]; intros v.
  - cbn. now rewrite Z.mod_1_r.
  - cbn [le_bytes le_value]. rewrite IH, Z_of_byte_of_Z, Zmod_mod.
    rewrite Nat2Z.inj_succ, Z.pow_succ_r by lia.
    rewrite (Z.rem_mul_r v 256 (256 ^ Z.of_nat n)); [reflexivity | lia | ].
    apply Z.pow_pos_nonneg; lia.
Qed.

Lemma decode_field_le_bytes (c : code) (v : Z) :
  in_range c v = true ->
  decode_field c (le_bytes (size c) v) = v.
Proof.
  intros H. unfold decode_field. rewrite le_value_le_bytes.
  destruct c; cbn [size in_range] in *;
    apply andb_prop in H as [Hlo Hhi];
    apply Z.leb_le in Hlo; apply Z.leb_le in Hhi.
  - change (256 ^ Z.of_nat 1) with 256. apply Z.mod_small. lia.
  - change (256 ^ Z.of_nat 4) with 4294967296. apply Z.mod_small. lia.
  - change (256 ^ Z.of_nat 8) with 18446744073709551616.
    destruct (Z.neg_nonneg_cases v) as [Hneg | Hpos].
    + replace (v mod 18446744073709551616) with (v + 18446744073709551616).
      * destruct (_ <? _) eqn:E; [apply Z.ltb_lt in E; lia | lia].
      * apply Z.mod_unique with (q := -1); lia.
    + rewrite Z.mod_small by lia.
      destruct (_ <? _) eqn:E; [reflexivity | apply Z.ltb_ge in E; lia].
Qed.

Lemma pack_from_length (fmt : list code) :
  forall off vs out,
    pack_from off fmt vs = Ok out ->
    (off + List.length out = end_offset off fmt)%nat.
Proof.
  induction fmt as [ | c fmt IH]; intros off vs out H.
  - destruct vs; [ | discriminate]. injection H as <-. cbn. lia.
  - destruct vs as [ | v vs]; [discriminate | ]. cbn [pack_from] in H.
    destruct (in_range c v); [ | discriminate].
    destruct (pack_from _ fmt vs) as [rest | e] eqn:Hrest; [ | discriminate].
    cbn [bind] in H. injection H as <-.
    apply IH in Hrest. cbn [end_offset].
    rewrite !length_app, repeat_length, length_le_bytes. lia.
Qed.

Lemma unpack_from_pack_from (fmt : list code) :
  forall off vs out,
    pack_from off fmt vs = Ok out ->
    unpack_from off fmt out = vs.
Proof.
  induction fmt as [ | c fmt IH]; intros off vs out H.
  - destruct vs; [reflexivity | discriminate].
  - destruct vs as [ | v vs]; [discriminate | ]. cbn [pack_from] in H.
    destruct (in_range c v) eqn:Hrange; [ | discriminate].
    destruct (pack_from _ fmt vs) as [rest | e] eqn:Hrest; [ | discriminate].
    cbn [bind] in H. injection H as <-. cbn [unpack_from].
    assert (Hskip : forall k, skipn (pad off (size c) + k)
                               (repeat x00 (pad off (size c)) ++ le_bytes (size c) v ++ rest)
                             = skipn k (le_bytes (size c) v ++ rest)).
    { intros k. rewrite skipn_app, repeat_length.
      rewrite skipn_all2 by (rewrite repeat_length; lia).
      cbn [app]. f_equal. lia. }
    f_equal.
    + rewrite <- (Nat.add_0_r (pad off (size c))) at 1. rewrite Hskip. cbn [skipn].
      rewrite firstn_app, length_le_bytes, Nat.sub_diag, firstn_O, app_nil_r.
      rewrite firstn_all2 by (rewrite length_le_bytes; lia).
      now apply decode_field_le_bytes.
    + rewrite Hskip, skipn_app, length_le_bytes, Nat.sub_diag.
      rewrite skipn_all2 by (rewrite length_le_bytes; lia).
      cbn [app skipn]. now apply IH.
Qed.

(** [struct.unpack(fmt, struct.pack(fmt, *vs))] gives the values back. *)
Lemma unpack_pack (fmt : list code) (vs : list Z) (out : bytes) :
  pack fmt vs = Ok out -> unpack fmt out = Ok vs.
Proof.
  intros H. unfold unpack, calcsize.
  pose proof (pack_from_length fmt 0 vs out H) as Hlen. cbn [Nat.add] in Hlen.
  rewrite Hlen, Nat.eqb_refl. f_equal. now apply unpack_from_pack_from.
Qed.

(** When every value is in the range of its field, [struct.pack] returns. *)
Lemma pack_from_in_range (fmt : list code) :
  forall off vs,
    Forall2 (fun c v => in_range c v = true) fmt vs ->
    exists out, pack_from off fmt vs = Ok out.
Proof.
  induction fmt as [ | c fmt IH]; intros off vs H; inversion H; subst.
  - now exists [].
  - cbn [pack_from]. rewrite H2.
    destruct (IH (off + pad off (size c) + size c)%nat _ H4) as [rest ->].
    cbn [bind]. eauto.
Qed.

(** ** Messages can be read back *)

Lemma slice_prefix {A : Type} (h t : list A) :
  slice (h ++ t) 0 (len h) = h.
Proof.
  unfold len. rewrite slice_nonneg by lia.
  rewrite Z.sub_0_r, Nat2Z.id. cbn [Z.to_nat skipn].
  rewrite firstn_app, Nat.sub_diag, firstn_O, app_nil_r.
  apply firstn_all.
Qed.

Lemma slice_from_suffix {A : Type} (h t : list A) :
  slice_from (h ++ t) (len h) = t.
Proof.
  unfold slice_from, len. rewrite clamp_nonneg by lia.
  rewrite Nat2Z.id, length_app, Nat.min_l by lia.
  rewrite skipn_app, Nat.sub_diag, skipn_all. reflexivity.
Qed.

Lemma slice_inside_prefix {A : Type} (h t : list A) (lo hi : Z) :
  0 <= lo <= hi -> hi <= len h ->
  slice (h ++ t) lo hi = slice h lo hi.
Proof.
  intros Hlo Hhi. unfold len in Hhi. rewrite !slice_nonneg by lia.
  rewrite skipn_app, firstn_app, length_skipn.
  replace (Z.to_nat (hi - lo) - (List.length h - Z.to_nat lo))%nat with 0%nat by lia.
  now rewrite firstn_O, app_nil_r.
Qed.

(** The header of a chunk message, split off. *)
Lemma create_chunk_shape (rt : Runtime) (chunk_index : Z) (data : bytes)
    (compress : bool) (message : bytes) :
  ProtocolMessage.create_chunk rt chunk_index data compress = Ok message ->
  exists header,
    pack [cB; cI; cI; cB; cq]
      [4; chunk_index;
       len (if compress then zlib_compress rt data 6 else data);
       if compress then 1 else 0; len data] = Ok header
    /\ len header = 24
    /\ message = header ++ (if compress then zlib_compress rt data 6 else data).
Proof.
  unfold ProtocolMessage.create_chunk.
  change (MessageType.value MessageType.CHUNK_DATA) with 4.
  change (CompressionLevel.value CompressionLevel.MEDIUM) with 6.
  destruct (pack _ _) as [header | e] eqn:Hpack; cbn [bind]; [ | discriminate].
  intros [= <-]. exists header. split; [reflexivity | split; [ | reflexivity]].
  apply pack_from_length in Hpack. cbn in Hpack. unfold len. lia.
Qed.

(** X1.  A chunk message loses nothing.  Read with the format it was
    written in, its first 24 bytes give back the tag, the index, the
    length of the payload, the compression flag and the length of the
    data; the bytes after them are the payload, which is the data itself
    when compression is off and decompresses to the data when it is on
    and [zlib] inverts its own compression. *)
Theorem create_chunk_lossless (rt : Runtime) (chunk_index : Z) (data : bytes)
    (compress : bool) (message : bytes) :
  ProtocolMessage.create_chunk rt chunk_index data compress = Ok message ->
  unpack [cB; cI; cI; cB; cq] (slice message 0 24)
  = Ok [MessageType.value MessageType.CHUNK_DATA; chunk_index;
        len (slice_from message 24); if compress then 1 else 0; len data]
  /\ len message = 24 + len (slice_from message 24)
  /\ (compress = false -> slice_from message 24 = data)
  /\ (compress = true -> zlib_lawful rt ->
      zlib_decompress rt (slice_from message 24) = Some data).
Proof.
  intros H. apply create_chunk_shape in H as (header & Hpack & Hlen & ->).
  rewrite <- Hlen. rewrite slice_prefix, slice_from_suffix.
  split; [now apply unpack_pack | ]. split.
  - unfold len in *. rewrite length_app. lia.
  - split; [now intros -> | intros -> Hlaw; apply Hlaw].
Qed.

Lemma sample_zlib_lawful : zlib_lawful Sample.runtime.
Proof. intros data level. reflexivity. Qed.

Lemma create_chunk_lossless_witness :
  exists message,
    ProtocolMessage.create_chunk Sample.runtime 7 Sample.notes true = Ok message
    /\ unpack [cB; cI; cI; cB; cq] (slice message 0 24) = Ok [4; 7; 6; 1; 5]
    /\ zlib_decompress Sample.runtime (slice_from message 24) = Some Sample.notes.
Proof.
  eexists. split; [reflexivity | ].
  destruct (create_chunk_lossless Sample.runtime 7 Sample.notes true _ eq_refl)
    as (Hhdr & _ & _ & Hdata).
  split; [exact Hhdr | exact (Hdata eq_refl sample_zlib_lawful)].
Defined.

Lemma pack_chunk_header_returns_iff (index payload_len flag data_len : Z) :
  in_range cB flag = true ->
  is_ok (pack [cB; cI; cI; cB; cq] [4; index; payload_len; flag; data_len]) = true
  <-> (in_range cI index = true /\ in_range cI payload_len = true
       /\ in_range cq data_len = true).
Proof.
  intros Hflag. unfold pack. cbn [pack_from].
  change (in_range cB 4) with true. cbv iota. rewrite Hflag.
  destruct (in_range cI index), (in_range cI payload_len), (in_range cq data_len);
    cbn [bind is_ok]; intuition discriminate.
Qed.

(** X2.  [create_chunk] returns exactly when the index and the length of
    the payload fit an unsigned 32-bit field and the length of the data a
    signed 64-bit one; a negative index or one of 2^32 and more makes it
    raise [struct.error]. *)
Theorem create_chunk_returns_iff (rt : Runtime) (chunk_index : Z) (data : bytes)
    (compress : bool) :
  is_ok (ProtocolMessage.create_chunk rt chunk_index data compress) = true
  <-> (0 <= chunk_index <= 4294967295
       /\ len (if compress then zlib_compress rt data 6 else data) <= 4294967295
       /\ len data <= 9223372036854775807).
Proof.
  unfold ProtocolMessage.create_chunk.
  change (MessageType.value MessageType.CHUNK_DATA) with 4.
  change (CompressionLevel.value CompressionLevel.MEDIUM) with 6.
  cbv zeta.
  assert (Hflag : in_range cB (if compress then 1 else 0) = true)
    by (destruct compress; reflexivity).
  pose proof (pack_chunk_header_returns_iff chunk_index
                (len (if compress then zlib_compress rt data 6 else data))
                (if compress then 1 else 0) (len data) Hflag) as Hpack.
  destruct (pack _ _) as [header | e]; cbn [bind is_ok] in *;
    rewrite Hpack; unfold in_range, len;
    rewrite !andb_true_iff, !Z.leb_le; lia.
Qed.

Lemma pack_single (c : code) (v : Z) :
  in_range c v = true -> pack [c] [v] = Ok (le_bytes (size c) v).
Proof.
  intros H. unfold pack. cbn [pack_from]. rewrite H. cbn [bind].
  replace (pad 0 (size c)) with 0%nat by (destruct c; reflexivity).
  cbn [repeat app]. now rewrite app_nil_r.
Qed.

Lemma in_range_len_I {A : Type} (l : list A) :
  len l <= 4294967295 -> in_range cI (len l) = true.
Proof.
  intros H. unfold in_range, len in *. apply andb_true_intro.
  split; apply Z.leb_le; lia.
Qed.

(** X3.  A handshake for a version of less than 4 GiB is the tag, the
    length of the version in four bytes and the version, five bytes of
    header in all; each part can be read back from its place, so the
    message determines the version. *)
Theorem create_handshake_readable (version : string) :
  len (encode_utf8 version) <= 4294967295 ->
  exists message,
    ProtocolMessage.create_handshake version = Ok message
    /\ unpack [cB] (slice message 0 1) = Ok [MessageType.value MessageType.HANDSHAKE]
    /\ unpack [cI] (slice message 1 5) = Ok [len (encode_utf8 version)]
    /\ slice_from message 5 = encode_utf8 version
    /\ len message = 5 + len (encode_utf8 version).
Proof.
  intros Hlen. unfold ProtocolMessage.create_handshake.
  rewrite (pack_single cB) by reflexivity.
  rewrite (pack_single cI) by now apply in_range_len_I.
  cbn [bind]. eexists. split; [reflexivity | ].
  change (le_bytes (size cB) (MessageType.value MessageType.HANDSHAKE)) with [x01].
  cbn [app]. split; [ | split; [ | split]].
  - now rewrite slice_head.
  - change (x01 :: le_bytes (size cI) (len (encode_utf8 version)) ++ encode_utf8 version)
      with ([x01] ++ le_bytes (size cI) (len (encode_utf8 version)) ++ encode_utf8 version).
    rewrite app_assoc.
    rewrite slice_inside_prefix
      by (unfold len; rewrite ?length_app, ?length_le_bytes; cbn; lia).
    replace (slice ([x01] ++ le_bytes (size cI) (len (encode_utf8 version))) 1 5)
      with (le_bytes (size cI) (len (encode_utf8 version))).
    + apply unpack_pack. apply pack_single. now apply in_range_len_I.
    + change 1 with (len [x01]) at 1.
      rewrite slice_nonneg by (unfold len; cbn; lia).
      cbn [len List.length Z.of_nat Z.to_nat Pos.to_nat Pos.iter_op Nat.add skipn app].
      change (Z.to_nat (5 - Z.of_nat 1)) with 4%nat.
      symmetry. apply firstn_all2. rewrite length_le_bytes. cbn. lia.
  - change (x01 :: le_bytes (size cI) (len (encode_utf8 version)) ++ encode_utf8 version)
      with (([x01] ++ le_bytes (size cI) (len (encode_utf8 version))) ++ encode_utf8 version).
    replace 5 with (len ([x01] ++ le_bytes (size cI) (len (encode_utf8 version))))
      by (unfold len; rewrite length_app, length_le_bytes; reflexivity).
    apply slice_from_suffix.
  - unfold len. cbn [List.length]. rewrite length_app, length_le_bytes. cbn [size]. lia.
Qed.

Lemma create_handshake_readable_witness :
  exists message,
    ProtocolMessage.create_handshake "1.0.0" = Ok message
    /\ unpack [cB] (slice message 0 1) = Ok [1]
    /\ unpack [cI] (slice message 1 5) = Ok [5]
    /\ slice_from message 5 = list_byte_of_string "1.0.0"
    /\ len message = 5 + 5.
Proof.
  apply (create_handshake_readable "1.0.0"). vm_compute. discriminate.
Defined.

(** A packed header followed by a body: both can be taken apart again. *)
Lemma framed_readable (fmt : list code) (vs : list Z) (header body : bytes) :
  pack fmt vs = Ok header ->
  len header = Z.of_nat (calcsize fmt)
  /\ unpack fmt (slice (header ++ body) 0 (Z.of_nat (calcsize fmt))) = Ok vs
  /\ slice_from (header ++ body) (Z.of_nat (calcsize fmt)) = body.
Proof.
  intros Hpack.
  assert (Hlen : len header = Z.of_nat (calcsize fmt)).
  { apply pack_from_length in Hpack. unfold len, calcsize. cbn in Hpack. lia. }
  rewrite <- Hlen, slice_prefix, slice_from_suffix.
  split; [reflexivity | split; [now apply unpack_pack | reflexivity]].
Qed.

(** X4.  An Error message for a code between 0 and 255 has an eight-byte
    header, from which the tag, the code and the length of the text are
    read back, followed by the text; it is the message the server builds
    for its own error replies.  A code outside 0..255 makes
    [create_error] raise [struct.error]; the text names the range of the
    format when the code fits a C [long] of 64 bits, and is "argument
    out of range" when it does not. *)
Theorem create_error_readable (error_code : Z) (error_msg : string) :
  (0 <= error_code <= 255 ->
   len (encode_utf8 error_msg) <= 4294967295 ->
   exists message,
     ProtocolMessage.create_error error_code error_msg = Ok message
     /\ unpack [cB; cB; cI] (slice message 0 8)
        = Ok [MessageType.value MessageType.ERROR; error_code;
              len (encode_utf8 error_msg)]
     /\ slice_from message 8 = encode_utf8 error_msg
     /\ FileShareServer.error_reply error_code (encode_utf8 error_msg) = Ok message)
  /\ (~ 0 <= error_code <= 255 ->
      -9223372036854775808 <= error_code <= 9223372036854775807 ->
      ProtocolMessage.create_error error_code error_msg
      = Raise (StructError "ubyte format requires 0 <= number <= 255"))
  /\ (~ -9223372036854775808 <= error_code <= 9223372036854775807 ->
      ProtocolMessage.create_error error_code error_msg
      = Raise (StructError "argument out of range")).
Proof.
  assert (Hraise : ~ 0 <= error_code <= 255 ->
                   ProtocolMessage.create_error error_code error_msg
                   = Raise (StructError (range_text cB error_code))).
  { intros Hcode. unfold ProtocolMessage.create_error, pack. cbn [pack_from].
    change (in_range cB (MessageType.value MessageType.ERROR)) with true. cbv iota.
    assert (Hrange : in_range cB error_code = false).
    { unfold in_range. apply andb_false_iff.
      destruct (Z.le_gt_cases 0 error_code);
        [right; apply Z.leb_gt | left; apply Z.leb_gt]; lia. }
    now rewrite Hrange. }
  split; [ | split].
  - intros Hcode Hlen. unfold ProtocolMessage.create_error, FileShareServer.error_reply.
    destruct (pack_from_in_range [cB; cB; cI] 0
                [MessageType.value MessageType.ERROR; error_code;
                 len (encode_utf8 error_msg)]) as [header Hpack].
    { repeat constructor.
      - unfold in_range. apply andb_true_intro. split; apply Z.leb_le; lia.
      - now apply in_range_len_I. }
    fold (pack [cB; cB; cI]
            [MessageType.value MessageType.ERROR; error_code;
             len (encode_utf8 error_msg)]) in Hpack.
    rewrite Hpack. cbn [bind]. eexists. split; [reflexivity | ].
    destruct (framed_readable _ _ header (encode_utf8 error_msg) Hpack)
      as (_ & Hhdr & Hbody).
    split; [exact Hhdr | split; [exact Hbody | reflexivity]].
  - intros Hcode Hlong. rewrite Hraise by exact Hcode. unfold range_text.
    replace ((-9223372036854775808 <=? error_code) && (error_code <=? 9223372036854775807))
      with true; [reflexivity | ].
    symmetry. apply andb_true_intro. split; apply Z.leb_le; lia.
  - intros Hlong. rewrite Hraise by lia. unfold range_text.
    replace ((-9223372036854775808 <=? error_code) && (error_code <=? 9223372036854775807))
      with false; [reflexivity | ].
    symmetry. apply andb_false_iff.
    destruct (Z.le_gt_cases (-9223372036854775808) error_code);
      [right; apply Z.leb_gt | left; apply Z.leb_gt]; lia.
Qed.

Lemma create_error_readable_witness :
  (exists message,
     ProtocolMessage.create_error 2 "File not found: a" = Ok message
     /\ unpack [cB; cB; cI] (slice message 0 8) = Ok [6; 2; 17]
     /\ slice_from message 8 = list_byte_of_string "File not found: a"
     /\ FileShareServer.error_reply 2 (list_byte_of_string "File not found: a")
        = Ok message)
  /\ ProtocolMessage.create_error 256 "File not found: a"
     = Raise (StructError "ubyte format requires 0 <= number <= 255")
  /\ ProtocolMessage.create_error 9223372036854775808 "File not found: a"
     = Raise (StructError "argument out of range").
Proof.
  split; [ | split].
  - apply (proj1 (create_error_readable 2 "File not found: a")).
    + lia.
    + vm_compute. discriminate.
  - apply (proj1 (proj2 (create_error_readable 256 "File not found: a"))); lia.
  - apply (proj2 (proj2 (create_error_readable 9223372036854775808 "File not found: a"))).
    lia.
Defined.

(** ** The chunks of a file *)

Lemma nth_map_seq {A : Type} (f : nat -> A) (n k : nat) (d : A) :
  (k < n)%nat -> nth k (map f (seq 0 n)) d = f k.
Proof.
  intros H. rewrite (nth_indep _ d (f 0%nat)) by (rewrite length_map, length_seq; lia).
  rewrite map_nth, seq_nth by lia. reflexivity.
Qed.

(** The number of chunks is the length divided by the chunk size,
    rounded up. *)
Lemma chunk_count_bounds (n s : Z) :
  0 <= n -> 0 < s ->
  0 <= (n + s - 1) / s
  /\ n <= s * ((n + s - 1) / s) < n + s.
Proof.
  intros Hn Hs.
  pose proof (Z.mul_div_le (n + s - 1) s Hs).
  pose proof (Z.mul_succ_div_gt (n + s - 1) s Hs).
  split; [apply Z.div_pos; lia | lia].
Qed.

(** X5.  For a positive chunk size [s], [split_file] cuts [ceil(len/s)]
    chunks; chunk [i] is [file_data[i*s : i*s + s]], it holds
    [min(s, len - i*s)] bytes and is never empty, so that every chunk but
    the last is [s] bytes long; an empty file, and only an empty file,
    gives no chunk at all. *)
Theorem split_file_chunks (self : FileTransferProtocol.t) (file_data : bytes) :
  0 < FileTransferProtocol.chunk_size self ->
  exists chunks,
    FileTransferProtocol.split_file self file_data = Ok chunks
    /\ len chunks
       = (len file_data + FileTransferProtocol.chunk_size self - 1)
           / FileTransferProtocol.chunk_size self
    /\ (chunks = [] <-> file_data = [])
    /\ (forall i,
          0 <= i < len chunks ->
          nth (Z.to_nat i) chunks []
          = slice file_data (i * FileTransferProtocol.chunk_size self)
              (i * FileTransferProtocol.chunk_size self
                 + FileTransferProtocol.chunk_size self)
          /\ len (nth (Z.to_nat i) chunks [])
             = Z.min (FileTransferProtocol.chunk_size self)
                 (len file_data - i * FileTransferProtocol.chunk_size self)
          /\ 0 < len (nth (Z.to_nat i) chunks [])).
Proof.
  intros Hs. pose proof (split_file_windows self file_data Hs) as Hsplit.
  set (s := FileTransferProtocol.chunk_size self) in *.
  set (n := (len file_data + s - 1) / s) in *.
  set (chunks := map (fun k => firstn (Z.to_nat s) (skipn (k * Z.to_nat s) file_data))
                   (seq 0 (Z.to_nat n))) in *.
  exists chunks. split; [exact Hsplit | ].
  destruct (chunk_count_bounds (len file_data) s) as (Hn0 & Hlo & Hhi);
    [unfold len; lia | exact Hs | ]. fold n in Hn0, Hlo, Hhi.
  assert (Hcount : len chunks = n).
  { unfold len, chunks. rewrite length_map, length_seq. lia. }
  split; [exact Hcount | ]. split.
  - split.
    + intros Hnil. rewrite Hnil in Hcount. unfold len in Hcount at 1. cbn in Hcount.
      destruct file_data; [reflexivity | ]. unfold len in Hlo. cbn [List.length] in Hlo. lia.
    + intros Hempty. destruct chunks as [ | c0 rest] eqn:Hchunks; [reflexivity | ].
      exfalso. rewrite Hempty in Hhi. unfold len in Hhi, Hcount.
      cbn [List.length] in Hhi, Hcount. nia.
  - intros i Hi.
    assert (Hin : 0 <= i < n) by (rewrite <- Hcount; exact Hi).
    unfold chunks. rewrite nth_map_seq by lia.
    assert (Hslice : firstn (Z.to_nat s) (skipn (Z.to_nat i * Z.to_nat s) file_data)
                     = slice file_data (i * s) (i * s + s)).
    { rewrite slice_nonneg by nia. f_equal; [lia | f_equal; nia]. }
    rewrite Hslice. split; [reflexivity | ].
    rewrite len_slice by nia.
    assert (i * s < len file_data) by nia.
    split; lia.
Qed.

Lemma split_file_chunks_witness :
  0 < FileTransferProtocol.chunk_size (FileTransferProtocol.init ChunkSize.SMALL true)
  /\ exists chunks,
       FileTransferProtocol.split_file
         (FileTransferProtocol.init ChunkSize.SMALL true) (repeat x61 (Z.to_nat 2500))
       = Ok chunks
       /\ len chunks = 3
       /\ len (nth 2 chunks []) = 452.
Proof.
  split; [reflexivity | ].
  destruct (split_file_chunks (FileTransferProtocol.init ChunkSize.SMALL true)
              (repeat x61 (Z.to_nat 2500)) eq_refl)
    as (chunks & Hsplit & Hcount & _ & Hnth).
  exists chunks. split; [exact Hsplit | ].
  assert (Hlen : len (repeat x61 (Z.to_nat 2500)) = 2500)
    by (unfold len; rewrite repeat_length; reflexivity).
  rewrite Hlen in Hcount, Hnth.
  assert (Hthree : len chunks = 3) by exact Hcount.
  split; [exact Hthree | ].
  destruct (Hnth 2) as (_ & Hsize & _); [rewrite Hthree; lia | ].
  exact Hsize.
Defined.

(** ** Compression and the whole path of a file *)

Lemma decompress_after_compress (rt : Runtime) (self : FileTransferProtocol.t)
    (chunk wire : bytes) :
  zlib_lawful rt ->
  FileTransferProtocol.compress_chunk rt self chunk = Ok wire ->
  FileTransferProtocol.decompress_chunk rt self wire = Ok chunk.
Proof.
  intros Hlaw.
  unfold FileTransferProtocol.compress_chunk, FileTransferProtocol.decompress_chunk,
    zlib_decompress_py.
  destruct (FileTransferProtocol.compression self); intros [= <-];
    [now rewrite Hlaw | reflexivity].
Qed.

(** X6.  When [zlib] inverts its own compression, [decompress_chunk]
    gives back every chunk that [compress_chunk] of the same protocol
    object produced, with compression on or off. *)
Theorem decompress_compress_chunk (rt : Runtime) (self : FileTransferProtocol.t)
    (chunk : bytes) :
  zlib_lawful rt ->
  exists wire,
    FileTransferProtocol.compress_chunk rt self chunk = Ok wire
    /\ FileTransferProtocol.decompress_chunk rt self wire = Ok chunk.
Proof.
  intros Hlaw.
  destruct (FileTransferProtocol.compress_chunk rt self chunk) as [wire | e] eqn:Hc.
  - exists wire. split; [reflexivity | now apply decompress_after_compress].
  - unfold FileTransferProtocol.compress_chunk in Hc.
    destruct (FileTransferProtocol.compression self); discriminate.
Qed.

Lemma decompress_compress_chunk_witness :
  zlib_lawful Sample.runtime
  /\ exists wire,
       FileTransferProtocol.compress_chunk Sample.runtime
         (FileTransferProtocol.init ChunkSize.MEDIUM true) Sample.notes = Ok wire
       /\ FileTransferProtocol.decompress_chunk Sample.runtime
            (FileTransferProtocol.init ChunkSize.MEDIUM true) wire = Ok Sample.notes.
Proof.
  split; [exact sample_zlib_lawful | ].
  apply (decompress_compress_chunk Sample.runtime
           (FileTransferProtocol.init ChunkSize.MEDIUM true) Sample.notes).
  exact sample_zlib_lawful.
Defined.

Lemma compressed_chunks_come_back (rt : Runtime) (self : FileTransferProtocol.t) :
  zlib_lawful rt ->
  forall chunks wire received,
    Forall2 (fun c p => FileTransferProtocol.compress_chunk rt self c = Ok p) chunks wire ->
    Forall2 (fun p c => FileTransferProtocol.decompress_chunk rt self p = Ok c)
      wire received ->
    received = chunks.
Proof.
  intros Hlaw chunks wire received Hout. revert received.
  induction Hout as [ | c p chunks wire Hc _ IH]; intros received Hin;
    inversion Hin as [ | p' c' wire' received' Hp Hrest]; subst; [reflexivity | ].
  f_equal; [ | now apply IH].
  pose proof (decompress_after_compress rt self c p Hlaw Hc). congruence.
Qed.

(** X7.  The whole path of a file.  Split with a positive chunk size,
    compress every chunk, decompress every chunk on the other side with
    the same settings, reassemble: the result is the file, and
    [verify_transfer] accepts it. *)
Theorem transfer_pipeline (rt : Runtime) (self : FileTransferProtocol.t)
    (file_data : bytes) (wire received : list bytes) :
  zlib_lawful rt ->
  0 < FileTransferProtocol.chunk_size self ->
  exists chunks,
    FileTransferProtocol.split_file self file_data = Ok chunks
    /\ (Forall2 (fun c p => FileTransferProtocol.compress_chunk rt self c = Ok p)
          chunks wire ->
        Forall2 (fun p c => FileTransferProtocol.decompress_chunk rt self p = Ok c)
          wire received ->
        FileTransferProtocol.reassemble_file received = file_data
        /\ FileTransferProtocol.verify_transfer rt file_data
             (FileTransferProtocol.reassemble_file received) = true).
Proof.
  intros Hlaw Hs.
  pose proof (split_file_windows self file_data Hs) as Hsplit.
  eexists. split; [exact Hsplit | ].
  intros Hout Hin.
  rewrite (compressed_chunks_come_back rt self Hlaw _ _ _ Hout Hin).
  assert (Hback : FileTransferProtocol.reassemble_file
                    (map (fun k => firstn (Z.to_nat (FileTransferProtocol.chunk_size self))
                                     (skipn (k * Z.to_nat (FileTransferProtocol.chunk_size self))
                                        file_data))
                       (seq 0 (Z.to_nat ((len file_data
                                            + FileTransferProtocol.chunk_size self - 1)
                                         / FileTransferProtocol.chunk_size self))))
                  = file_data).
  { unfold FileTransferProtocol.reassemble_file. apply concat_windows; [lia | ].
    destruct (chunk_count_bounds (len file_data) (FileTransferProtocol.chunk_size self))
      as (Hn0 & Hlo & _); [unfold len; lia | exact Hs | ].
    unfold len in *. nia. }
  rewrite Hback. split; [reflexivity | ].
  unfold FileTransferProtocol.verify_transfer. apply String.eqb_refl.
Qed.

Lemma transfer_pipeline_witness :
  zlib_lawful Sample.runtime
  /\ 0 < FileTransferProtocol.chunk_size (FileTransferProtocol.init ChunkSize.SMALL true)
  /\ FileTransferProtocol.reassemble_file [Sample.notes] = Sample.notes
  /\ FileTransferProtocol.verify_transfer Sample.runtime Sample.notes
       (FileTransferProtocol.reassemble_file [Sample.notes]) = true.
Proof.
  split; [exact sample_zlib_lawful | ]. split; [reflexivity | ].
  destruct (transfer_pipeline Sample.runtime
              (FileTransferProtocol.init ChunkSize.SMALL true) Sample.notes
              [x78 :: Sample.notes] [Sample.notes] sample_zlib_lawful eq_refl)
    as (chunks & Hsplit & Hrest).
  assert (Hchunks : chunks = [Sample.notes])
    by (vm_compute in Hsplit; injection Hsplit as <-; reflexivity).
  subst chunks. apply Hrest; repeat constructor.
Defined.

(** ** What a connection handler always does *)

Section SendsOnly.

Lemma sent_more_nil (w : world) : sent_more [] w = w.
Proof. destruct w. unfold sent_more. cbn. now rewrite app_nil_r. Qed.

Lemma sent_more_twice (a b : list bytes) (w : world) :
  sent_more b (sent_more a w) = sent_more (a ++ b) w.
Proof. unfold sent_more. cbn. now rewrite app_assoc. Qed.

Lemma sends_only_ret {A} (a : A) : sends_only (ret a).
Proof. intros w. exists []. cbn. now rewrite sent_more_nil. Qed.

Lemma sends_only_raise {A} (e : exn) : sends_only (@raise A e).
Proof. intros w. exists []. cbn. now rewrite sent_more_nil. Qed.

Lemma sends_only_lift {A} (r : result A) : sends_only (lift r).
Proof. intros w. exists []. cbn. now rewrite sent_more_nil. Qed.

Lemma sends_only_sendall (b : bytes) : sends_only (sendall b).
Proof. intros w. now exists [b]. Qed.

Lemma sends_only_exists_and_isfile (p : string) : sends_only (exists_and_isfile p).
Proof. intros w. exists []. cbn. now rewrite sent_more_nil. Qed.

Lemma sends_only_read_file (p : string) : sends_only (read_file p).
Proof. intros w. exists []. cbn. now rewrite sent_more_nil. Qed.

Lemma sends_only_bindM {A B} (m : M A) (k : A -> M B) :
  sends_only m -> (forall a, sends_only (k a)) -> sends_only (bindM m k).
Proof.
  intros Hm Hk w. unfold bindM. destruct (Hm w) as [s1 H1].
  destruct (m w) as [[a | e] w1]; cbn [snd] in *; subst w1.
  - destruct (Hk a (sent_more s1 w)) as [s2 H2]. exists (s1 ++ s2).
    now rewrite H2, sent_more_twice.
  - now exists s1.
Qed.

Lemma sends_only_try_except {A} (m : M A) (h : exn -> M A) :
  sends_only m -> (forall e, sends_only (h e)) -> sends_only (try_except m h).
Proof.
  intros Hm Hh w. unfold try_except. destruct (Hm w) as [s1 H1].
  destruct (m w) as [[a | e] w1]; cbn [snd] in *; subst w1.
  - now exists s1.
  - destruct (Hh e (sent_more s1 w)) as [s2 H2]. exists (s1 ++ s2).
    now rewrite H2, sent_more_twice.
Qed.

Lemma sends_only_for_each {A} (xs : list A) (body : A -> M unit) :
  (forall x, sends_only (body x)) -> sends_only (for_each xs body).
Proof.
  intros Hbody. induction xs as [ | x xs IH]; cbn [for_each].
  - apply sends_only_ret.
  - apply sends_only_bindM; [apply Hbody | intros _; exact IH].
Qed.

Lemma sends_only_if {A} (c : bool) (m1 m2 : M A) :
  sends_only m1 -> sends_only m2 -> sends_only (if c then m1 else m2).
Proof. destruct c; auto. Qed.

End SendsOnly.

Create HintDb sends_only.
#[export] Hint Resolve sends_only_ret sends_only_raise sends_only_lift
  sends_only_sendall sends_only_exists_and_isfile sends_only_read_file
  sends_only_bindM sends_only_try_except sends_only_for_each sends_only_if
  : sends_only.

Lemma handle_handshake_sends_only (rt : Runtime) (self : FileShareServer.t) (data : bytes) :
  sends_only (FileShareServer._handle_handshake rt self data).
Proof. unfold FileShareServer._handle_handshake. auto with sends_only. Qed.

Lemma handle_file_request_sends_only (rt : Runtime) (self : FileShareServer.t)
    (data : bytes) :
  sends_only (FileShareServer._handle_file_request rt self data).
Proof.
  unfold FileShareServer._handle_file_request.
  apply sends_only_try_except; [ | auto with sends_only].
  apply sends_only_bindM; [auto with sends_only | intros filename].
  apply sends_only_bindM; [auto with sends_only | intros found].
  apply sends_only_if; auto 8 with sends_only.
Qed.

Lemma handle_chunk_upload_sends_only (rt : Runtime) (self : FileShareServer.t)
    (data : bytes) :
  sends_only (FileShareServer._handle_chunk_upload rt self data).
Proof.
  unfold FileShareServer._handle_chunk_upload.
  apply sends_only_try_except; [ | auto with sends_only].
  apply sends_only_bindM; [auto with sends_only | intros [[i payload] compressed]].
  auto with sends_only.
Qed.

(** The dispatch of [_process_client_request] on what was read. *)
Lemma dispatch_sends_only (rt : Runtime) (self : FileShareServer.t) (data : bytes) :
  sends_only
    (match data with
     | [] => ret None
     | b0 :: _ =>
         if Z_of_byte b0 =? MessageType.value MessageType.HANDSHAKE
         then FileShareServer._handle_handshake rt self data
         else if Z_of_byte b0 =? MessageType.value MessageType.FILE_REQUEST
         then FileShareServer._handle_file_request rt self data
         else if Z_of_byte b0 =? MessageType.value MessageType.CHUNK_DATA
         then FileShareServer._handle_chunk_upload rt self data
         else r <~ lift (FileShareServer.error_reply 1 (encode_utf8 "Unknown message type")) ;;
              ret (Some r)
     end).
Proof.
  destruct data as [ | b0 rest]; [apply sends_only_ret | ].
  repeat apply sends_only_if;
    auto using handle_handshake_sends_only, handle_file_request_sends_only,
      handle_chunk_upload_sends_only with sends_only.
Qed.

(** A handler that answers every exception with a value never raises. *)
Lemma try_except_ret_total {A} (m : M A) (a : A) (w : world) :
  exists r, fst (try_except m (fun _ => ret a) w) = Ok r.
Proof.
  unfold try_except. destruct (m w) as [[r | e] w1]; cbn; eauto.
Qed.

(** After its single read, [_process_client_request] only sends, and it
    never raises. *)
Lemma process_client_request_outcome (rt : Runtime) (self : FileShareServer.t) (w : world) :
  exists response sent,
    FileShareServer._process_client_request rt self w
    = (Ok response, sent_more sent (snd (recv 1024 w))).
Proof.
  unfold FileShareServer._process_client_request.
  match goal with
  | |- context [try_except (bindM (recv 1024) ?K) ?h w] =>
      change (try_except (bindM (recv 1024) K) h w)
        with (try_except (K (next_read 1024 (inbox w))) h (snd (recv 1024 w)));
      pose proof (sends_only_try_except (K (next_read 1024 (inbox w))) h) as Hsends;
      pose proof (try_except_ret_total (K (next_read 1024 (inbox w))) None
                    (snd (recv 1024 w))) as Htotal
  end.
  cbv beta in Hsends, Htotal.
  destruct (Hsends (dispatch_sends_only rt self _) (fun _ => sends_only_ret None)
              (snd (recv 1024 w))) as [sent Hsent].
  destruct Htotal as [response Hresponse].
  exists response, sent.
  rewrite (surjective_pairing (try_except _ _ _)). now rewrite Hresponse, Hsent.
Qed.

Lemma filter_twice {A : Type} (f : A -> bool) (l : list A) :
  filter f (filter f l) = filter f l.
Proof.
  induction l as [ | x l IH]; [reflexivity | ].
  cbn [filter]. destruct (f x) eqn:E; [ | exact IH].
  cbn [filter]. now rewrite E, IH.
Qed.

(** X8.  Whatever arrives on a connection, [_handle_client] returns
    without raising, after at most one [recv(1024)]; it has closed the
    socket, removed its own entry from [active_connections] and kept the
    other entries, left the file system as it was, and added messages to
    what had been sent without touching the earlier ones. *)
Theorem handle_client_always_cleans_up (rt : Runtime) (self : FileShareServer.t)
    (client_id : Z) (w : world) :
  exists w' sent,
    FileShareServer._handle_client rt self client_id w = (Ok tt, w')
    /\ closed w' = true
    /\ active_connections w'
       = filter (fun k => negb (k =? client_id)) (active_connections w)
    /\ ~ In client_id (active_connections w')
    /\ stat w' = stat w
    /\ inbox w' = after_read 1024 (inbox w)
    /\ outbox w' = outbox w ++ sent.
Proof.
  destruct (process_client_request_outcome rt self (snd (connection_add client_id w)))
    as (response & sent & Hproc).
  assert (Hgone : forall l, ~ In client_id (filter (fun k => negb (k =? client_id)) l)).
  { intros l Hin. apply filter_In in Hin as [_ Hneq].
    now rewrite Z.eqb_refl in Hneq. }
  assert (Hfilter :
    filter (fun k => negb (k =? client_id))
      (client_id :: filter (fun k => negb (k =? client_id)) (active_connections w))
    = filter (fun k => negb (k =? client_id)) (active_connections w)).
  { cbn [filter]. rewrite Z.eqb_refl. cbn [negb]. apply filter_twice. }
  unfold FileShareServer._handle_client, try_finally, try_except, bindM.
  unfold connection_add in *. cbn [snd] in Hproc. rewrite Hproc.
  destruct response as [[ | b r] | ];
    unfold sendall, close, connection_del, ret, sent_more, recv;
    cbv beta iota; cbn [closed active_connections stat inbox outbox snd fst].
  - eexists. exists sent. split; [reflexivity | ].
    cbn [closed active_connections stat inbox outbox].
    rewrite Hfilter. repeat split; auto.
  - eexists. exists (sent ++ [b :: r]). split; [reflexivity | ].
    cbn [closed active_connections stat inbox outbox].
    rewrite Hfilter, app_assoc. repeat split; auto.
  - eexists. exists sent. split; [reflexivity | ].
    cbn [closed active_connections stat inbox outbox].
    rewrite Hfilter. repeat split; auto.
Qed.

(** X9.  A first byte other than the HANDSHAKE, FILE_REQUEST and
    CHUNK_DATA tags, be it one of the protocol's other tags, is answered
    with the Error of code 1 and text "Unknown message type", after which
    the connection is closed. *)
Theorem unknown_type_reply (rt : Runtime) (self : FileShareServer.t) (client_id : Z)
    (w : world) (b : byte) (rest : bytes) :
  next_read 1024 (inbox w) = b :: rest ->
  Z_of_byte b <> MessageType.value MessageType.HANDSHAKE ->
  Z_of_byte b <> MessageType.value MessageType.FILE_REQUEST ->
  Z_of_byte b <> MessageType.value MessageType.CHUNK_DATA ->
  exists w',
    FileShareServer._handle_client rt self client_id w = (Ok tt, w')
    /\ outbox w'
       = outbox w
           ++ [[byte_of_Z (MessageType.value MessageType.ERROR); x01; x00; x00]
                 ++ le_bytes 4 20 ++ encode_utf8 "Unknown message type"]
    /\ closed w' = true.
Proof.
  intros Hrecv H1 H2 H4.
  destruct (handle_client_sends rt self client_id w
              (snd (recv 1024 (snd (connection_add client_id w))))
              x06 ([x01; x00; x00] ++ le_bytes 4 20 ++ encode_utf8 "Unknown message type"))
    as (w' & Hrun & _ & _ & Hout & Hclosed).
  - rewrite (process_client_request_dispatch rt self _ b rest) by exact Hrecv.
    apply Z.eqb_neq in H1, H2, H4.
    change (MessageType.value MessageType.HANDSHAKE) with 1 in H1.
    change (MessageType.value MessageType.FILE_REQUEST) with 2 in H2.
    change (MessageType.value MessageType.CHUNK_DATA) with 4 in H4.
    rewrite H1, H2, H4. reflexivity.
  - exists w'. repeat split; assumption.
Qed.

Lemma unknown_type_reply_witness :
  exists w',
    FileShareServer._handle_client Sample.runtime Sample.server 1
      (Sample.accepted [x07]) = (Ok tt, w')
    /\ outbox w'
       = [[x06; x01; x00; x00; x14; x00; x00; x00]
            ++ list_byte_of_string "Unknown message type"]
    /\ closed w' = true.
Proof.
  apply (unknown_type_reply Sample.runtime Sample.server 1 (Sample.accepted [x07]) x07 []);
    [reflexivity | discriminate | discriminate | discriminate].
Defined.

(** X10.  When the peer sends nothing before it is done, the server
    sends nothing either and closes the connection. *)
Theorem silent_peer_gets_no_reply (rt : Runtime) (self : FileShareServer.t)
    (client_id : Z) (w : world) :
  next_read 1024 (inbox w) = [] ->
  exists w',
    FileShareServer._handle_client rt self client_id w = (Ok tt, w')
    /\ outbox w' = outbox w
    /\ closed w' = true.
Proof.
  intros Hrecv.
  unfold FileShareServer._handle_client, FileShareServer._process_client_request,
    try_finally, try_except, bindM, recv, connection_add.
  cbn [snd inbox]. rewrite Hrecv. cbn. eexists. repeat split.
Qed.

Lemma silent_peer_gets_no_reply_witness :
  exists w',
    FileShareServer._handle_client Sample.runtime Sample.server 1
      {| stat := Sample.storage; open_error := Sample.open_errors;
         inbox := []; outbox := []; closed := false;
         active_connections := [] |}
    = (Ok tt, w')
    /\ outbox w' = []
    /\ closed w' = true.
Proof.
  apply (silent_peer_gets_no_reply Sample.runtime Sample.server 1
           {| stat := Sample.storage; open_error := Sample.open_errors;
         inbox := []; outbox := []; closed := false;
              active_connections := [] |}).
  reflexivity.
Defined.

(** ** Requests that cannot be read *)

Lemma request_filename_failure (rt : Runtime) (data : bytes) (e : exn) :
  FileShareServer.request_filename rt data = Raise e ->
  ((List.length data < 5)%nat
   /\ e = StructError "unpack requires a buffer of 4 bytes")
  \/ ((5 <= List.length data)%nat
      /\ exists text, e = UnicodeDecodeError text).
Proof.
  unfold FileShareServer.request_filename, unpack.
  change (calcsize [cI]) with 4%nat. rewrite slice_length, !clamp_nonneg by lia.
  change (Z.to_nat 5) with 5%nat. change (Z.to_nat 1) with 1%nat.
  destruct (Nat.min 5 (List.length data) - Nat.min 1 (List.length data) =? 4)%nat eqn:E.
  - apply Nat.eqb_eq in E. cbn [bind]. unfold decode_utf8.
    destruct (utf8_valid _); [discriminate | ].
    intros [= <-]. right. split; [lia | eauto].
  - apply Nat.eqb_neq in E. cbn [bind]. intros [= <-]. left. split; [lia | reflexivity].
Qed.

(** X11.  A FileRequest that is shorter than five bytes, or whose name is
    not valid UTF-8, never reaches the file system: the reply is the
    Error of code 3 that carries the text of the exception, which is
    "unpack requires a buffer of 4 bytes" for the short one. *)
Theorem unreadable_request_reply (rt : Runtime) (self : FileShareServer.t)
    (client_id : Z) (w : world) (b : byte) (rest : bytes) (e : exn) :
  next_read 1024 (inbox w) = b :: rest ->
  Z_of_byte b = MessageType.value MessageType.FILE_REQUEST ->
  FileShareServer.request_filename rt (b :: rest) = Raise e ->
  len (encode_utf8 (str_of_exn e)) <= 4294967295 ->
  exists w',
    FileShareServer._handle_client rt self client_id w = (Ok tt, w')
    /\ outbox w'
       = outbox w
           ++ [[byte_of_Z (MessageType.value MessageType.ERROR); x03; x00; x00]
                 ++ le_bytes 4 (len (encode_utf8 (str_of_exn e)))
                 ++ encode_utf8 (str_of_exn e)]
    /\ closed w' = true
    /\ (((List.length (b :: rest) < 5)%nat
         /\ e = StructError "unpack requires a buffer of 4 bytes")
        \/ ((5 <= List.length (b :: rest))%nat
            /\ exists text, e = UnicodeDecodeError text))
    /\ (forall st',
          FileShareServer._handle_file_request rt self (b :: rest) (with_stat st' w)
          = (fst (FileShareServer._handle_file_request rt self (b :: rest) w),
             with_stat st' (snd (FileShareServer._handle_file_request rt self (b :: rest) w)))).
Proof.
  intros Hrecv Htag Hname Hlen.
  assert (Hhandler : forall w0,
    FileShareServer._handle_file_request rt self (b :: rest) w0
    = (Ok (Some ([x06; x03; x00; x00]
                   ++ le_bytes 4 (len (encode_utf8 (str_of_exn e)))
                   ++ encode_utf8 (str_of_exn e))), w0)).
  { intros w0. unfold FileShareServer._handle_file_request.
    rewrite (try_except_raise _ _ w0 w0 e).
    - erewrite bindM_ok; [reflexivity | ].
      unfold lift. now rewrite error_reply_ok by (exact Hlen || lia).
    - apply bindM_raise. unfold lift. now rewrite Hname. }
  destruct (handle_client_sends rt self client_id w
              (snd (recv 1024 (snd (connection_add client_id w))))
              x06
              ([x03; x00; x00] ++ le_bytes 4 (len (encode_utf8 (str_of_exn e)))
                 ++ encode_utf8 (str_of_exn e)))
    as (w' & Hrun & _ & _ & Hout & Hclosed).
  - rewrite (process_client_request_dispatch rt self _ b rest) by exact Hrecv.
    rewrite Htag. cbn [MessageType.value Z.eqb Pos.eqb].
    unfold try_except at 1. now rewrite Hhandler.
  - exists w'. split; [exact Hrun | ]. split; [exact Hout | ].
    split; [exact Hclosed | ]. split; [now apply request_filename_failure in Hname | ].
    intros st'. now rewrite !Hhandler.
Qed.

Lemma unreadable_request_reply_witness :
  exists w',
    FileShareServer._handle_client Sample.runtime Sample.server 1
      (Sample.accepted [x02; x09; x00]) = (Ok tt, w')
    /\ outbox w'
       = [[x06; x03; x00; x00; x23; x00; x00; x00]
            ++ list_byte_of_string "unpack requires a buffer of 4 bytes"]
    /\ closed w' = true.
Proof.
  destruct (unreadable_request_reply Sample.runtime Sample.server 1
              (Sample.accepted [x02; x09; x00]) x02 [x09; x00]
              (StructError "unpack requires a buffer of 4 bytes"))
    as (w' & Hrun & Hout & Hclosed & _);
    [reflexivity | reflexivity | reflexivity | vm_compute; discriminate | ].
  exists w'. repeat split; assumption.
Defined.

(** ** A download carries the whole file *)

Lemma create_chunk_in_range (rt : Runtime) (chunk_index : Z) (data : bytes)
    (compress : bool) :
  0 <= chunk_index <= 4294967295 ->
  len (if compress then zlib_compress rt data 6 else data) <= 4294967295 ->
  len data <= 9223372036854775807 ->
  is_ok (ProtocolMessage.create_chunk rt chunk_index data compress) = true.
Proof.
  intros Hi Hp Hd. unfold ProtocolMessage.create_chunk.
  change (MessageType.value MessageType.CHUNK_DATA) with 4.
  change (CompressionLevel.value CompressionLevel.MEDIUM) with 6.
  cbv zeta.
  assert (Hflag : in_range cB (if compress then 1 else 0) = true)
    by (destruct compress; reflexivity).
  pose proof (pack_chunk_header_returns_iff chunk_index
                (len (if compress then zlib_compress rt data 6 else data))
                (if compress then 1 else 0) (len data) Hflag) as Hpack.
  destruct (pack _ _) as [header | e]; cbn [bind is_ok] in *; [reflexivity | ].
  apply Hpack. unfold in_range, len in *.
  rewrite !andb_true_iff, !Z.leb_le. lia.
Qed.

Lemma in_enumerate {A : Type} (l : list A) (i : Z) (x : A) :
  In (i, x) (enumerate l) -> 0 <= i < len l /\ In x l.
Proof.
  unfold enumerate, len. intros H. split.
  - apply in_combine_l in H. apply in_map_iff in H as (k & <- & Hk).
    apply in_seq in Hk. lia.
  - now apply in_combine_r in H.
Qed.

Lemma forall2_combine_snd {A B C : Type} (P : B -> C -> Prop) :
  forall (l : list B) (idx : list A) (sent : list C),
    List.length idx = List.length l ->
    Forall2 (fun ic m => P (snd ic) m) (combine idx l) sent ->
    Forall2 P l sent.
Proof.
  induction l as [ | x l IH]; intros idx sent Hlen H.
  - destruct idx; [ | discriminate]. inversion H. constructor.
  - destruct idx as [ | i idx]; [discriminate | ]. cbn [combine] in H.
    inversion H; subst. constructor; [assumption | ].
    apply (IH idx); [cbn in Hlen; lia | assumption].
Qed.

(** When every chunk can be put in a message, the loop sends them all. *)
Lemma send_loop_complete (rt : Runtime) (compress : bool) (ics : list (Z * bytes)) :
  Forall (fun ic =>
            is_ok (ProtocolMessage.create_chunk rt (fst ic) (snd ic) compress) = true) ics ->
  forall w,
  exists sent,
    for_each ics
      (fun ic =>
         msg <~ lift (ProtocolMessage.create_chunk rt (fst ic) (snd ic) compress) ;;
         sendall msg) w
    = (Ok tt, sent_more sent w)
    /\ Forall2 (fun ic m => ProtocolMessage.create_chunk rt (fst ic) (snd ic) compress = Ok m)
         ics sent.
Proof.
  induction 1 as [ | ic ics Hic _ IH]; intros w.
  - exists []. split; [cbn; now rewrite sent_more_nil | constructor].
  - cbn [for_each].
    destruct (ProtocolMessage.create_chunk rt (fst ic) (snd ic) compress)
      as [msg | e] eqn:Hmsg; [ | discriminate].
    destruct (IH (sent_more [msg] w)) as (sent & Hrun & Hall).
    exists (msg :: sent). split; [ | now constructor].
    rewrite (bindM_ok _ _ w (sent_more [msg] w) tt).
    + rewrite Hrun. now rewrite sent_more_twice.
    + now rewrite (bindM_ok _ _ w w msg).
Qed.

(** X12.  A download carries the whole file.  When the requested name
    resolves to a regular file of at most 2^44 bytes, and compressing a
    chunk never yields 4 GiB or more, the server sends one chunk message
    for every chunk of the file, with indices 0, 1, 2, ... in this order,
    before its last message, the Error with code 3.  If [zlib] inverts
    its own compression, the payloads (what follows the 24 header bytes),
    decompressed and put together in the order of arrival, are the
    content of the file. *)
Theorem download_sends_whole_file (rt : Runtime) (data_dir : string) (client_id : Z)
    (w : world) (b : byte) (rest : bytes) (filename : string) (c : bytes) :
  next_read 1024 (inbox w) = b :: rest ->
  Z_of_byte b = MessageType.value MessageType.FILE_REQUEST ->
  FileShareServer.request_filename rt (b :: rest) = Ok filename ->
  stat w (FileShareServer.request_filepath (FileShareServer.init data_dir) filename)
  = Some (File c) ->
  len c <= 17592186044416 ->
  (forall d, len d <= 4096 -> len (zlib_compress rt d 6) <= 4294967295) ->
  exists w' chunks sent,
    FileShareServer._handle_client rt (FileShareServer.init data_dir) client_id w
    = (Ok tt, w')
    /\ FileTransferProtocol.split_file
         (FileShareServer.protocol (FileShareServer.init data_dir)) c = Ok chunks
    /\ outbox w'
       = outbox w ++ sent
           ++ [[byte_of_Z (MessageType.value MessageType.ERROR); x03; x00; x00]
                 ++ le_bytes 4 63
                 ++ encode_utf8 (str_of_exn ProtocolMessage.create_message_lookup)]
    /\ Forall2 (fun ic m => ProtocolMessage.create_chunk rt (fst ic) (snd ic) true = Ok m)
         (enumerate chunks) sent
    /\ (zlib_lawful rt ->
        Forall2 (fun chunk m => zlib_decompress rt (slice_from m 24) = Some chunk)
          chunks sent
        /\ FileTransferProtocol.reassemble_file chunks = c).
Proof.
  intros Hrecv Htag Hname Hstat Hsize Hzlib.
  set (self := FileShareServer.init data_dir) in *.
  set (w1 := snd (recv 1024 (snd (connection_add client_id w)))).
  change (stat w) with (stat w1) in Hstat.
  pose proof (split_file_windows (FileShareServer.protocol self) c eq_refl) as Hsplit.
  change (FileTransferProtocol.chunk_size (FileShareServer.protocol self)) with 4096 in Hsplit.
  set (n := (len c + 4096 - 1) / 4096) in *.
  set (chunks := map (fun k => firstn (Z.to_nat 4096) (skipn (k * Z.to_nat 4096) c))
                   (seq 0 (Z.to_nat n))) in *.
  destruct (chunk_count_bounds (len c) 4096) as (Hn0 & Hlo & Hhi);
    [unfold len; lia | lia | ]. fold n in Hn0, Hlo, Hhi.
  assert (Hcount : len chunks = n)
    by (unfold len, chunks; rewrite length_map, length_seq; lia).
  assert (Hshort : forall ch, In ch chunks -> len ch <= 4096).
  { intros ch Hin. unfold chunks in Hin. apply in_map_iff in Hin as (k & <- & _).
    unfold len. pose proof (firstn_le_length (Z.to_nat 4096)
                              (skipn (k * Z.to_nat 4096) c)). lia. }
  assert (Hcan : Forall (fun ic =>
            is_ok (ProtocolMessage.create_chunk rt (fst ic) (snd ic) true) = true)
            (enumerate chunks)).
  { apply Forall_forall. intros [i ch] Hin. apply in_enumerate in Hin as [Hi Hch].
    apply Hshort in Hch.
    apply create_chunk_in_range; cbn [fst snd].
    - unfold len, bytes in *. clear - Hsize Hhi Hcount Hi. clearbody n chunks. lia.
    - now apply Hzlib.
    - unfold len in *. lia. }
  destruct (send_loop_complete rt true (enumerate chunks) Hcan w1) as (sent & Hloop & Hall).
  assert (Hhandler :
    FileShareServer._handle_file_request rt self (b :: rest) w1
    = (Ok (Some ([x06; x03; x00; x00] ++ le_bytes 4 63
                   ++ encode_utf8 (str_of_exn ProtocolMessage.create_message_lookup))),
       sent_more sent w1)).
  { unfold FileShareServer._handle_file_request.
    rewrite (try_except_raise _ _ w1 (sent_more sent w1)
               ProtocolMessage.create_message_lookup); [reflexivity | ].
    rewrite (bindM_ok _ _ w1 w1 filename) by (unfold lift; now rewrite Hname).
    rewrite (bindM_ok _ _ w1 w1 true)
      by (unfold exists_and_isfile; now rewrite Hstat).
    rewrite (bindM_ok _ _ w1 w1 c) by (unfold read_file; now rewrite Hstat).
    rewrite (bindM_ok _ _ w1 w1 chunks) by (unfold lift; now rewrite Hsplit).
    now rewrite (bindM_ok _ _ w1 (sent_more sent w1) tt) by exact Hloop. }
  destruct (handle_client_sends rt self client_id w (sent_more sent w1) x06
              ([x03; x00; x00] ++ le_bytes 4 63
                 ++ encode_utf8 (str_of_exn ProtocolMessage.create_message_lookup)))
    as (w' & Hrun & _ & _ & Hout & Hclosed).
  - rewrite (process_client_request_dispatch rt self _ b rest) by exact Hrecv.
    rewrite Htag. cbn [MessageType.value Z.eqb Pos.eqb].
    unfold try_except at 1. fold w1. now rewrite Hhandler.
  - exists w', chunks, sent.
    split; [exact Hrun | ]. split; [exact Hsplit | ]. split; [ | split; [exact Hall | ]].
    + rewrite Hout. cbn [outbox sent_more]. now rewrite <- app_assoc.
    + intros Hlaw. split.
      * apply (forall2_combine_snd
                 (fun chunk m => zlib_decompress rt (slice_from m 24) = Some chunk)
                 chunks (map Z.of_nat (seq 0 (List.length chunks))) sent).
        -- now rewrite length_map, length_seq.
        -- eapply Forall2_impl; [ | exact Hall].
           intros [i ch] m Hm. cbn [fst snd] in *.
           apply create_chunk_shape in Hm as (header & _ & Hlen & ->).
           rewrite <- Hlen, slice_from_suffix. apply Hlaw.
      * unfold FileTransferProtocol.reassemble_file, chunks.
        apply concat_windows; [lia | ]. unfold len in *. lia.
Qed.

Lemma sample_compress_small (d : bytes) :
  len d <= 4096 -> len (zlib_compress Sample.runtime d 6) <= 4294967295.
Proof.
  unfold len. cbn [zlib_compress Sample.runtime Sample.compress List.length]. lia.
Qed.

Lemma download_sends_whole_file_witness :
  exists w' chunks sent,
    FileShareServer._handle_client Sample.runtime Sample.server 1
      (Sample.accepted (Sample.request "notes.txt")) = (Ok tt, w')
    /\ FileTransferProtocol.split_file (FileShareServer.protocol Sample.server) Sample.notes
       = Ok chunks
    /\ outbox w'
       = [] ++ sent
           ++ [[x06; x03; x00; x00] ++ le_bytes 4 63
                 ++ encode_utf8 (str_of_exn ProtocolMessage.create_message_lookup)]
    /\ Forall2 (fun ic m =>
                  ProtocolMessage.create_chunk Sample.runtime (fst ic) (snd ic) true = Ok m)
         (enumerate chunks) sent
    /\ (zlib_lawful Sample.runtime ->
        Forall2 (fun chunk m =>
                   zlib_decompress Sample.runtime (slice_from m 24) = Some chunk)
          chunks sent
        /\ FileTransferProtocol.reassemble_file chunks = Sample.notes).
Proof.
  apply (download_sends_whole_file Sample.runtime "./shared_files" 1
           (Sample.accepted (Sample.request "notes.txt"))
           x02 (le_bytes 4 9 ++ list_byte_of_string "notes.txt") "notes.txt" Sample.notes).
  - reflexivity.
  - reflexivity.
  - reflexivity.
  - reflexivity.
  - vm_compute. discriminate.
  - exact sample_compress_small.
Defined.

(** ** The client's request, as the server reads it *)

Lemma le_bytes_4_small (n : Z) :
  0 <= n <= 255 -> le_bytes 4 n = [byte_of_Z n; x00; x00; x00].
Proof.
  intros H. cbn [le_bytes].
  rewrite (Z.mod_small n 256) by lia. rewrite (Z.div_small n 256) by lia.
  reflexivity.
Qed.

Lemma string_of_list_byte_cons (b : byte) (bs : bytes) :
  string_of_list_byte (b :: bs) = String (ascii_of_byte b) (string_of_list_byte bs).
Proof. reflexivity. Qed.

Lemma client_request_as_read (rt : Runtime) (filename : string) :
  utf8_valid (encode_utf8 filename) = true ->
  1 <= len (encode_utf8 filename) <= 255 ->
  exists request,
    FileShareClient._create_file_request filename = Ok request
    /\ len request = 8 + len (encode_utf8 filename)
    /\ unpack [cI] (slice request 1 5) = Ok [len (encode_utf8 filename) * 16777216]
    /\ FileShareServer.request_filename rt request
       = Ok (String zero (String zero (String zero filename))).
Proof.
  intros Hvalid Hlen. set (name := encode_utf8 filename) in *.
  assert (Hreq : FileShareClient._create_file_request filename
                 = Ok ([x02; x00; x00; x00; byte_of_Z (len name); x00; x00; x00] ++ name)).
  { unfold FileShareClient._create_file_request, pack. fold name. cbn [pack_from].
    change (in_range cB (MessageType.value MessageType.FILE_REQUEST)) with true. cbv iota.
    rewrite in_range_len_I by lia. cbn [bind].
    change (size cI) with 4%nat. rewrite le_bytes_4_small by lia. reflexivity. }
  eexists. split; [exact Hreq | ].
  assert (Hfield : slice ([x02; x00; x00; x00; byte_of_Z (len name); x00; x00; x00] ++ name)
                     1 5 = [x00; x00; x00; byte_of_Z (len name)]).
  { change ([x02; x00; x00; x00; byte_of_Z (len name); x00; x00; x00] ++ name)
      with ([x02; x00; x00; x00; byte_of_Z (len name)] ++ [x00; x00; x00] ++ name).
    rewrite slice_inside_prefix by (unfold len; cbn; lia).
    rewrite slice_nonneg by lia. reflexivity. }
  assert (Hvalue : unpack [cI] [x00; x00; x00; byte_of_Z (len name)]
                   = Ok [len name * 16777216]).
  { change (unpack [cI] [x00; x00; x00; byte_of_Z (len name)])
      with (Ok [0 + 256 * (0 + 256 * (0 + 256 * (Z_of_byte (byte_of_Z (len name))
                                                       + 256 * 0)))]).
    rewrite Z_of_byte_of_Z, Z.mod_small by lia. do 2 f_equal. lia. }
  split; [unfold len; cbn [List.length app]; lia | ].
  rewrite Hfield. split; [exact Hvalue | ].
  unfold FileShareServer.request_filename. rewrite Hfield, Hvalue. cbn [bind nth].
  assert (Hname : slice ([x02; x00; x00; x00; byte_of_Z (len name); x00; x00; x00] ++ name)
                    5 (5 + len name * 16777216) = [x00; x00; x00] ++ name).
  { rewrite slice_nonneg by lia. cbn [app]. change (Z.to_nat 5) with 5%nat. cbn [skipn].
    apply firstn_all2. unfold len in *. cbn [List.length]. lia. }
  rewrite Hname. unfold decode_utf8. cbn [app utf8_valid].
  change (between 0 127 x00) with true. cbv iota. rewrite Hvalid.
  rewrite !string_of_list_byte_cons. unfold name, encode_utf8.
  now rewrite string_of_list_byte_of_string.
Qed.

(** X13.  The request that [_create_file_request] builds for a name of 1
    to 255 bytes is not read by the server as a request for that name:
    the three padding bytes of ['BI'] shift the fields, the server takes
    the low byte of the length as the high byte, and the name it decodes
    is the requested one behind three zero bytes. *)
Theorem client_request_misread_by_server (rt : Runtime) (filename : string) :
  utf8_valid (encode_utf8 filename) = true ->
  1 <= len (encode_utf8 filename) <= 255 ->
  exists request,
    FileShareClient._create_file_request filename = Ok request
    /\ len request = 8 + len (encode_utf8 filename)
    /\ unpack [cI] (slice request 1 5) = Ok [len (encode_utf8 filename) * 16777216]
    /\ FileShareServer.request_filename rt request
       = Ok (String zero (String zero (String zero filename))).
Proof.
  intros Hvalid Hlen.
  destruct (client_request_as_read rt filename Hvalid Hlen)
    as (request & Hreq & Hsize & Hfield & Hname).
  exists request. repeat split; assumption.
Qed.

Lemma client_request_misread_by_server_witness :
  exists request,
    FileShareClient._create_file_request "notes.txt" = Ok request
    /\ len request = 8 + 9
    /\ unpack [cI] (slice request 1 5) = Ok [9 * 16777216]
    /\ FileShareServer.request_filename Sample.runtime request
       = Ok (String zero (String zero (String zero "notes.txt"))).
Proof.
  apply (client_request_misread_by_server Sample.runtime "notes.txt").
  - reflexivity.
  - vm_compute. split; discriminate.
Defined.

(** ** The sending side of an upload *)

Lemma send_chunks_outcome (rt : Runtime) (self : FileShareClient.t)
    (ics : list (Z * bytes)) :
  forall w,
  exists sent r,
    FileShareClient.send_chunks rt self ics w = (Ok r, sent_more sent w)
    /\ Forall2 (fun ic m =>
                  ProtocolMessage.create_chunk rt (fst ic) (snd ic)
                    (FileTransferProtocol.compression (FileShareClient.protocol self))
                  = Ok m)
         (firstn (List.length sent) ics) sent
    /\ ((r = true /\ List.length sent = List.length ics)
        \/ (r = false
            /\ exists ic e,
                 nth_error ics (List.length sent) = Some ic
                 /\ ProtocolMessage.create_chunk rt (fst ic) (snd ic)
                      (FileTransferProtocol.compression (FileShareClient.protocol self))
                    = Raise e)).
Proof.
  induction ics as [ | [i chunk] ics IH]; intros w.
  - exists [], true. split; [cbn; now rewrite sent_more_nil | ].
    split; [constructor | left; split; reflexivity].
  - cbn [FileShareClient.send_chunks].
    destruct (ProtocolMessage.create_chunk rt i chunk
                (FileTransferProtocol.compression (FileShareClient.protocol self)))
      as [msg | e] eqn:Hmsg.
    + destruct (IH (sent_more [msg] w)) as (sent & r & Hrun & Hall & Hend).
      exists (msg :: sent), r. split; [ | split].
      * rewrite (bindM_ok _ _ w (sent_more [msg] w) true).
        -- cbv iota. rewrite Hrun. now rewrite sent_more_twice.
        -- unfold try_except.
           rewrite (bindM_ok _ _ w w msg) by reflexivity.
           now rewrite (bindM_ok _ _ w (sent_more [msg] w) tt).
      * cbn [List.length firstn]. constructor; [exact Hmsg | exact Hall].
      * destruct Hend as [[-> Hlen] | (-> & ic & e & Hnth & Hraise)].
        -- left. split; [reflexivity | cbn; lia].
        -- right. split; [reflexivity | ]. exists ic, e. now split.
    + exists [], false. split; [ | split; [constructor | right]].
      * rewrite (bindM_ok _ _ w w false).
        -- cbv iota. cbn. now rewrite sent_more_nil.
        -- unfold try_except. now rewrite (bindM_raise _ _ w w e).
      * split; [reflexivity | ]. exists (i, chunk), e. now split.
Qed.

(** X14.  [_send_file] with a positive chunk size never raises.  It puts
    on the wire the chunk messages of a prefix of the file's chunks, with
    indices 0, 1, 2, ... in this order, and nothing else: neither the
    file name nor the checksum it computes.  It returns [True] exactly
    when every chunk went out, and [False] when it stopped at the first
    chunk for which [create_chunk] raised; for an empty file it sends
    nothing and returns [True]. *)
Theorem send_file_outcome (rt : Runtime) (self : FileShareClient.t) (filename : string)
    (file_data : bytes) (w : world) :
  0 < FileTransferProtocol.chunk_size (FileShareClient.protocol self) ->
  exists chunks sent r,
    FileTransferProtocol.split_file (FileShareClient.protocol self) file_data = Ok chunks
    /\ FileShareClient._send_file rt self filename file_data w = (Ok r, sent_more sent w)
    /\ Forall2 (fun ic m =>
                  ProtocolMessage.create_chunk rt (fst ic) (snd ic)
                    (FileTransferProtocol.compression (FileShareClient.protocol self))
                  = Ok m)
         (firstn (List.length sent) (enumerate chunks)) sent
    /\ (r = true <-> List.length sent = List.length chunks)
    /\ (r = false ->
        exists ic e,
          nth_error (enumerate chunks) (List.length sent) = Some ic
          /\ ProtocolMessage.create_chunk rt (fst ic) (snd ic)
               (FileTransferProtocol.compression (FileShareClient.protocol self))
             = Raise e)
    /\ (file_data = [] -> sent = [] /\ r = true).
Proof.
  intros Hs.
  pose proof (split_file_windows (FileShareClient.protocol self) file_data Hs) as Hsplit.
  set (s := FileTransferProtocol.chunk_size (FileShareClient.protocol self)) in *.
  set (chunks := map (fun k => firstn (Z.to_nat s) (skipn (k * Z.to_nat s) file_data))
                   (seq 0 (Z.to_nat ((len file_data + s - 1) / s)))) in *.
  destruct (send_chunks_outcome rt self (enumerate chunks) w)
    as (sent & r & Hrun & Hall & Hend).
  exists chunks, sent, r. split; [exact Hsplit | ]. split; [ | split; [exact Hall | ]].
  - unfold FileShareClient._send_file.
    rewrite (bindM_ok _ _ w w chunks) by (unfold lift; now rewrite Hsplit).
    exact Hrun.
  - rewrite length_enumerate in Hend.
    assert (Hbound : forall ic, nth_error (enumerate chunks) (List.length sent) = Some ic ->
                                (List.length sent < List.length chunks)%nat).
    { intros ic Hnth. rewrite <- (length_enumerate chunks).
      apply nth_error_Some. congruence. }
    split; [ | split].
    + destruct Hend as [[-> Hlen] | (-> & ic & e & Hnth & _)].
      * split; auto.
      * apply Hbound in Hnth.
        split; [discriminate | intros Heq; exfalso; unfold bytes in *; lia].
    + intros ->. destruct Hend as [[Hr _] | (_ & Hfail)]; [discriminate | exact Hfail].
    + intros ->.
      assert (Hnone : chunks = []).
      { unfold chunks, len. cbn [List.length Z.of_nat].
        rewrite Z.div_small by lia. reflexivity. }
      rewrite Hnone in Hall, Hend. cbn [enumerate List.length seq map combine] in Hall.
      rewrite firstn_nil in Hall. inversion Hall; subst.
      split; [reflexivity | ].
      destruct Hend as [[-> _] | (_ & ic & e & Hnth & _)]; [reflexivity | ].
      cbn in Hnth. discriminate.
Qed.

Lemma send_file_outcome_witness :
  0 < FileTransferProtocol.chunk_size (FileShareClient.protocol Sample.client)
  /\ exists chunks sent r,
       FileTransferProtocol.split_file (FileShareClient.protocol Sample.client) Sample.lesson
       = Ok chunks
       /\ FileShareClient._send_file Sample.runtime Sample.client "lesson.txt" Sample.lesson
            (Sample.accepted []) = (Ok r, sent_more sent (Sample.accepted []))
       /\ Forall2 (fun ic m =>
                     ProtocolMessage.create_chunk Sample.runtime (fst ic) (snd ic)
                       (FileTransferProtocol.compression
                          (FileShareClient.protocol Sample.client)) = Ok m)
            (firstn (List.length sent) (enumerate chunks)) sent
       /\ (r = true <-> List.length sent = List.length chunks)
       /\ (r = false ->
           exists ic e,
             nth_error (enumerate chunks) (List.length sent) = Some ic
             /\ ProtocolMessage.create_chunk Sample.runtime (fst ic) (snd ic)
                  (FileTransferProtocol.compression
                     (FileShareClient.protocol Sample.client)) = Raise e)
       /\ (Sample.lesson = [] -> sent = [] /\ r = true).
Proof.
  split; [reflexivity | ].
  apply (send_file_outcome Sample.runtime Sample.client "lesson.txt" Sample.lesson
           (Sample.accepted [])).
  reflexivity.
Defined.

(** ** The receiving side of a download *)

(** With enough reads allowed, the loop takes everything that arrives,
    in order, and stops when nothing is left. *)
Lemma receive_loop_drains :
  forall (reads : nat) (chunks : list bytes) (w : world),
    Forall (fun seg => seg <> []) (inbox w) ->
    (pending_size (inbox w) < reads)%nat ->
    exists chunks',
      FileShareClient.receive_loop reads chunks w
      = (Ok chunks',
         {| stat := stat w; open_error := open_error w; inbox := []; outbox := outbox w;
            closed := closed w; active_connections := active_connections w |})
      /\ List.concat chunks' = List.concat chunks ++ List.concat (inbox w)
      /\ (chunks' = [] <-> chunks = [] /\ inbox w = []).
Proof.
  induction reads as [ | reads IH]; intros chunks w Hsegs Hfuel; [lia | ].
  change (FileShareClient.receive_loop (S reads) chunks w)
    with (bindM (recv (Z.to_nat 65536))
            (fun data => match data with
                         | [] => ret chunks
                         | _ => FileShareClient.receive_loop reads (chunks ++ [data])
                         end) w).
  assert (HN : exists N, Z.to_nat 65536 = S N) by (exists (Z.to_nat 65535); lia).
  destruct HN as [N ->].
  destruct (inbox w) as [ | seg more] eqn:Hinbox.
  - exists chunks. unfold bindM, recv. rewrite Hinbox. cbn.
    split; [reflexivity | ]. split; [now rewrite app_nil_r | ]. tauto.
  - inversion Hsegs as [ | ? ? Hseg Hmore]; subst.
    destruct seg as [ | b seg]; [contradiction | ].
    set (w1 := {| stat := stat w; open_error := open_error w; inbox := after_read (S N) ((b :: seg) :: more);
                  outbox := outbox w; closed := closed w;
                  active_connections := active_connections w |}).
    assert (Hstep : bindM (recv (S N))
                      (fun data => match data with
                                   | [] => ret chunks
                                   | _ => FileShareClient.receive_loop reads (chunks ++ [data])
                                   end) w
                    = FileShareClient.receive_loop reads
                        (chunks ++ [b :: firstn N seg]) w1).
    { unfold bindM, recv. rewrite Hinbox. reflexivity. }
    rewrite Hstep.
    assert (Hrest : Forall (fun s => s <> []) (inbox w1)
                    /\ (pending_size (inbox w1) < reads)%nat
                    /\ List.concat (inbox w1) = skipn N seg ++ List.concat more).
    { cbn [inbox w1 after_read skipn]. cbn [pending_size List.length] in Hfuel.
      pose proof (length_skipn N seg) as Hskip.
      destruct (skipn N seg) as [ | c rest] eqn:Hs.
      - split; [exact Hmore | split; [lia | reflexivity]].
      - split; [constructor; [discriminate | exact Hmore] | ].
        split; [cbn [pending_size] in *; lia | reflexivity]. }
    destruct Hrest as (Hsegs1 & Hfuel1 & Hconcat1).
    destruct (IH (chunks ++ [b :: firstn N seg]) w1 Hsegs1 Hfuel1)
      as (chunks' & Hrun & Hconcat & Hnil).
    exists chunks'. split; [exact Hrun | ]. split.
    + rewrite Hconcat, Hconcat1, concat_app.
      change (List.concat [b :: firstn N seg]) with ((b :: firstn N seg) ++ []).
      rewrite app_nil_r, <- app_assoc. f_equal.
      change (List.concat ((b :: seg) :: more)) with (b :: seg ++ List.concat more).
      cbn [app]. f_equal. now rewrite app_assoc, firstn_skipn.
    + split.
      * intros H. apply Hnil in H as [H _]. now destruct chunks.
      * intros [_ H]. discriminate.
Qed.

Lemma receive_file_outcome (self : FileShareClient.t) (output_path : string) (w : world) :
  Forall (fun seg => seg <> []) (inbox w) ->
  (inbox w = [] -> FileShareClient._receive_file self output_path w = (Ok false, w))
  /\ (inbox w <> [] ->
      open_error w output_path = None ->
      FileShareClient._receive_file self output_path w
      = (Ok true,
         {| stat := fun q => if String.eqb q output_path
                             then Some (File (List.concat (inbox w)))
                             else stat w q;
            open_error := open_error w;
            inbox := []; outbox := outbox w; closed := closed w;
            active_connections := active_connections w |}))
  /\ (inbox w <> [] ->
      open_error w output_path <> None ->
      FileShareClient._receive_file self output_path w
      = (Ok false,
         {| stat := stat w; open_error := open_error w;
            inbox := []; outbox := outbox w; closed := closed w;
            active_connections := active_connections w |})).
Proof.
  intros Hsegs.
  destruct (receive_loop_drains (S (pending_size (inbox w))) [] w Hsegs (Nat.lt_succ_diag_r _))
    as (chunks & Hrun & Hconcat & Hnil).
  cbn [List.concat app] in Hconcat.
  unfold FileShareClient._receive_file, try_except.
  rewrite (bindM_ok _ _ w _ chunks Hrun).
  split; [ | split]; intros Hinbox.
  - assert (Hchunks : chunks = []) by (apply Hnil; auto).
    subst chunks. destruct w. cbn in *. now subst.
  - intros Hopen. destruct chunks as [ | c0 chunks].
    + exfalso. apply Hinbox. now apply Hnil.
    + cbv zeta. unfold bindM, write_file. cbn [open_error]. rewrite Hopen, Hconcat.
      reflexivity.
  - intros Hopen. destruct chunks as [ | c0 chunks].
    + exfalso. apply Hinbox. now apply Hnil.
    + cbv zeta. unfold bindM, write_file. cbn [open_error].
      destruct (open_error w output_path) as [e | ]; [reflexivity | contradiction].
Qed.

(** X15.  [download_file] does nothing when the client is not connected.
    When it is, and the name can be encoded, it sends the request and
    reads until the peer is done.  It returns [True] exactly when at
    least one byte arrived and the local path (the remote name when none
    is given) could be opened for writing; the file then holds exactly
    the bytes that arrived, in the order of arrival: they are not parsed,
    decompressed or checked.  When nothing arrived, or when [open]
    raised, it returns [False] and the file system is as before. *)
Theorem download_file_saves_stream (self : FileShareClient.t) (remote_filename : string)
    (local_path : option string) (w : world) :
  Forall (fun seg => seg <> []) (inbox w) ->
  utf8_valid (encode_utf8 remote_filename) = true ->
  len (encode_utf8 remote_filename) <= 4294967295 ->
  exists request,
    FileShareClient._create_file_request remote_filename = Ok request
    /\ FileShareClient.download_file self false remote_filename local_path w = (Ok false, w)
    /\ exists r w',
         FileShareClient.download_file self true remote_filename local_path w = (Ok r, w')
         /\ outbox w' = outbox w ++ [request]
         /\ inbox w' = []
         /\ (r = true
             <-> inbox w <> []
                 /\ open_error w (match local_path with
                                  | None => remote_filename
                                  | Some path => path
                                  end) = None)
         /\ (r = true ->
             stat w' (match local_path with None => remote_filename | Some path => path end)
             = Some (File (List.concat (inbox w)))
             /\ forall q,
                  q <> match local_path with None => remote_filename | Some path => path end ->
                  stat w' q = stat w q)
         /\ (r = false -> stat w' = stat w).
Proof.
  intros Hsegs _ Hlen.
  assert (Hreq : exists request,
             FileShareClient._create_file_request remote_filename = Ok request).
  { unfold FileShareClient._create_file_request.
    destruct (pack_from_in_range [cB; cI] 0
                [MessageType.value MessageType.FILE_REQUEST;
                 len (encode_utf8 remote_filename)]) as [header Hpack].
    - repeat constructor. now apply in_range_len_I.
    - unfold pack. rewrite Hpack. cbn [bind]. eauto. }
  destruct Hreq as [request Hreq]. exists request.
  split; [exact Hreq | ]. split; [reflexivity | ].
  set (target := match local_path with None => remote_filename | Some path => path end).
  destruct (receive_file_outcome self target (sent_more [request] w) Hsegs)
    as (Hnone & Hsome & Hrefused).
  assert (Hrun : forall r w',
             FileShareClient._receive_file self target (sent_more [request] w) = (Ok r, w') ->
             FileShareClient.download_file self true remote_filename local_path w
             = (Ok r, w')).
  { intros r w' Hreceive.
    unfold FileShareClient.download_file. cbn [negb]. fold target. unfold try_except.
    rewrite (bindM_ok _ _ w w request) by (unfold lift; now rewrite Hreq).
    rewrite (bindM_ok _ _ w (sent_more [request] w) tt) by reflexivity.
    now rewrite Hreceive. }
  cbn [inbox open_error sent_more] in Hnone, Hsome, Hrefused.
  destruct (inbox w) as [ | seg more] eqn:Hinbox.
  - exists false, (sent_more [request] w).
    split; [apply Hrun; now apply Hnone | ].
    split; [reflexivity | ]. split; [exact Hinbox | ].
    split; [split; [discriminate | intros [H _]; congruence] | ].
    split; [discriminate | reflexivity].
  - destruct (open_error w target) as [e | ] eqn:Hopen.
    + eexists false, _.
      split; [apply Hrun; apply Hrefused; discriminate | ].
      split; [reflexivity | ]. split; [reflexivity | ].
      split; [split; [discriminate | intros [_ H]; discriminate] | ].
      split; [discriminate | reflexivity].
    + eexists true, _.
      split; [apply Hrun; apply Hsome; [discriminate | reflexivity] | ].
      split; [reflexivity | ]. split; [reflexivity | ].
      split; [split; [intros _; split; [discriminate | reflexivity] | reflexivity] | ].
      split; [ | discriminate].
      intros _. cbn [stat]. rewrite String.eqb_refl.
      split; [reflexivity | ].
      intros q Hq. apply String.eqb_neq in Hq. now rewrite Hq.
Qed.

Lemma download_file_saves_stream_witness :
  (exists request w',
     FileShareClient._create_file_request "notes.txt" = Ok request
     /\ FileShareClient.download_file Sample.client true "notes.txt" None
          (Sample.accepted [x06; x02]) = (Ok true, w')
     /\ outbox w' = [request]
     /\ inbox w' = []
     /\ stat w' "notes.txt" = Some (File [x06; x02]))
  /\ (exists request w',
        FileShareClient._create_file_request "nodir/notes.txt" = Ok request
        /\ FileShareClient.download_file Sample.client true "nodir/notes.txt" None
             (Sample.accepted [x06; x02]) = (Ok false, w')
        /\ outbox w' = [request]
        /\ inbox w' = []
        /\ stat w' = Sample.storage).
Proof.
  split.
  - destruct (download_file_saves_stream Sample.client "notes.txt" None
                (Sample.accepted [x06; x02]))
      as (request & Hreq & _ & r & w' & Hrun & Hout & Hin & Hr & Hsaved & _).
    + repeat constructor. discriminate.
    + reflexivity.
    + vm_compute. discriminate.
    + assert (Htrue : r = true) by (apply Hr; split; [discriminate | reflexivity]).
      exists request, w'. rewrite Htrue in Hrun.
      split; [exact Hreq | ]. split; [exact Hrun | ].
      split; [exact Hout | ]. split; [exact Hin | ].
      exact (proj1 (Hsaved Htrue)).
  - destruct (download_file_saves_stream Sample.client "nodir/notes.txt" None
                (Sample.accepted [x06; x02]))
      as (request & Hreq & _ & r & w' & Hrun & Hout & Hin & Hr & _ & Hkept).
    + repeat constructor. discriminate.
    + reflexivity.
    + vm_compute. discriminate.
    + assert (Hfalse : r = false).
      { destruct r; [ | reflexivity].
        destruct (proj1 Hr eq_refl) as [_ Hopen]. discriminate Hopen. }
      exists request, w'. rewrite Hfalse in Hrun.
      split; [exact Hreq | ]. split; [exact Hrun | ].
      split; [exact Hout | ]. split; [exact Hin | ].
      exact (Hkept Hfalse).
Defined.

(** ** The client's handshake *)

(** X17.  [_handshake] sends the Handshake for version 1.0.0, reads once,
    and returns [True] exactly when at least one byte came back; what the
    bytes are is not looked at, so a reply that starts with the ERROR tag
    counts as a successful handshake. *)
Theorem client_handshake_accepts_any_reply (cs : ChunkSize.t) (w : world) :
  exists r w',
    FileShareClient._handshake (FileShareClient.init cs) w = (Ok r, w')
    /\ outbox w' = outbox w ++ [[x01; x05; x00; x00; x00] ++ encode_utf8 "1.0.0"]
    /\ inbox w' = after_read 1024 (inbox w)
    /\ stat w' = stat w
    /\ (r = true <-> next_read 1024 (inbox w) <> [])
    /\ (forall rest,
          next_read 1024 (inbox w)
          = byte_of_Z (MessageType.value MessageType.ERROR) :: rest ->
          r = true).
Proof.
  assert (Hrun : FileShareClient._handshake (FileShareClient.init cs) w
                 = (Ok (0 <? len (next_read 1024 (inbox w))),
                    snd (recv 1024
                           (sent_more [[x01; x05; x00; x00; x00] ++ encode_utf8 "1.0.0"] w))))
    by reflexivity.
  assert (Hpositive : (0 <? len (next_read 1024 (inbox w))) = true
                      <-> next_read 1024 (inbox w) <> []).
  { destruct (next_read 1024 (inbox w)) as [ | b rest].
    - split; [discriminate | congruence].
    - split; [discriminate | intros _; apply Z.ltb_lt; unfold len; cbn [List.length]; lia]. }
  do 2 eexists. split; [exact Hrun | ].
  split; [reflexivity | ]. split; [reflexivity | ]. split; [reflexivity | ].
  split; [exact Hpositive | ].
  intros rest Hreply. apply Hpositive. rewrite Hreply. discriminate.
Qed.

(** ** What an uploaded chunk is answered with *)

(** X18.  Every message that starts with the CHUNK_DATA tag, those built
    by [create_chunk] included, is answered with the Error of code 4 and
    the text "unpack requires a buffer of 16 bytes": [parse_chunk] raises
    on all of them, so the branch of [_handle_chunk_upload] that builds
    the acknowledgement is never reached. *)
Theorem chunk_upload_always_refused (rt : Runtime) (self : FileShareServer.t)
    (client_id : Z) (w : world) (b : byte) (rest : bytes) :
  next_read 1024 (inbox w) = b :: rest ->
  Z_of_byte b = MessageType.value MessageType.CHUNK_DATA ->
  exists w',
    FileShareServer._handle_client rt self client_id w = (Ok tt, w')
    /\ outbox w'
       = outbox w
           ++ [[byte_of_Z (MessageType.value MessageType.ERROR); x04; x00; x00]
                 ++ le_bytes 4 36 ++ encode_utf8 "unpack requires a buffer of 16 bytes"]
    /\ closed w' = true.
Proof.
  intros Hrecv Htag.
  destruct (handle_client_sends rt self client_id w
              (snd (recv 1024 (snd (connection_add client_id w))))
              x06
              ([x04; x00; x00] ++ le_bytes 4 36
                 ++ encode_utf8 "unpack requires a buffer of 16 bytes"))
    as (w' & Hrun & _ & _ & Hout & Hclosed).
  - rewrite (process_client_request_dispatch rt self _ b rest) by exact Hrecv.
    rewrite Htag. cbn [MessageType.value Z.eqb Pos.eqb].
    unfold FileShareServer._handle_chunk_upload, try_except.
    unfold bindM at 1. unfold lift at 1.
    rewrite parse_chunk_tagged by exact Htag. reflexivity.
  - exists w'. repeat split; assumption.
Qed.

Lemma chunk_upload_always_refused_witness :
  exists w',
    FileShareServer._handle_client Sample.runtime Sample.server 1
      (Sample.accepted (List.concat Sample.upload_sent)) = (Ok tt, w')
    /\ outbox w'
       = [[x06; x04; x00; x00; x24; x00; x00; x00]
            ++ list_byte_of_string "unpack requires a buffer of 16 bytes"]
    /\ closed w' = true.
Proof.
  apply (chunk_upload_always_refused Sample.runtime Sample.server 1
           (Sample.accepted (List.concat Sample.upload_sent))
           x04 (skipn 1 (List.concat Sample.upload_sent)));
    reflexivity.
Defined.

(** ** Directory parts of a requested name *)

(** The file-request handler once the name is known and a regular file is
    found at the resolved path: the name itself is not used any more. *)
Lemma handle_file_request_by_path (rt : Runtime) (self : FileShareServer.t)
    (data : bytes) (filename : string) (c : bytes) (w : world) :
  FileShareServer.request_filename rt data = Ok filename ->
  stat w (FileShareServer.request_filepath self filename) = Some (File c) ->
  FileShareServer._handle_file_request rt self data w
  = try_except
      (chunks <~ lift (FileTransferProtocol.split_file (FileShareServer.protocol self) c) ;;
       for_each (enumerate chunks)
         (fun ic =>
            msg <~ lift (ProtocolMessage.create_chunk rt (fst ic) (snd ic)
                           (FileTransferProtocol.compression (FileShareServer.protocol self))) ;;
            sendall msg) ;;;
       raise ProtocolMessage.create_message_lookup)
      (fun e =>
         let error_msg := encode_utf8 (str_of_exn e) in
         r <~ lift (FileShareServer.error_reply 3 error_msg) ;;
         ret (Some r))
      w.
Proof.
  intros Hname Hstat.
  unfold FileShareServer._handle_file_request, try_except.
  rewrite (bindM_ok _ _ w w filename) by (unfold lift; now rewrite Hname).
  rewrite (bindM_ok _ _ w w true) by (unfold exists_and_isfile; now rewrite Hstat).
  rewrite (bindM_ok _ _ w w c) by (unfold read_file; now rewrite Hstat).
  reflexivity.
Qed.

(** X19.  Directory parts of a requested name are ignored.  Two requests
    whose names end in the same component after the last separator, say
    [notes.txt] and [a/b/notes.txt], resolve to the same path, and when
    a regular file is found there the server sends the same messages and
    gives the same reply to both. *)
Theorem same_basename_same_download (rt : Runtime) (self : FileShareServer.t)
    (data1 data2 : bytes) (name1 name2 : string) (c : bytes) (w : world) :
  FileShareServer.request_filename rt data1 = Ok name1 ->
  FileShareServer.request_filename rt data2 = Ok name2 ->
  Posixpath.basename name1 = Posixpath.basename name2 ->
  stat w (FileShareServer.request_filepath self name1) = Some (File c) ->
  FileShareServer.request_filepath self name1 = FileShareServer.request_filepath self name2
  /\ FileShareServer._handle_file_request rt self data1 w
     = FileShareServer._handle_file_request rt self data2 w.
Proof.
  intros Hname1 Hname2 Hbase Hstat.
  assert (Hpath : FileShareServer.request_filepath self name1
                  = FileShareServer.request_filepath self name2)
    by (unfold FileShareServer.request_filepath; now rewrite Hbase).
  split; [exact Hpath | ].
  rewrite (handle_file_request_by_path rt self data1 name1 c w Hname1 Hstat).
  rewrite Hpath in Hstat.
  now rewrite (handle_file_request_by_path rt self data2 name2 c w Hname2 Hstat).
Qed.

Lemma same_basename_same_download_witness :
  FileShareServer.request_filepath Sample.server "notes.txt"
  = FileShareServer.request_filepath Sample.server "a/b/notes.txt"
  /\ FileShareServer._handle_file_request Sample.runtime Sample.server
       (Sample.request "notes.txt") (Sample.accepted [])
     = FileShareServer._handle_file_request Sample.runtime Sample.server
         (Sample.request "a/b/notes.txt") (Sample.accepted []).
Proof.
  apply (same_basename_same_download Sample.runtime Sample.server
           (Sample.request "notes.txt") (Sample.request "a/b/notes.txt")
           "notes.txt" "a/b/notes.txt" Sample.notes (Sample.accepted []));
    reflexivity.
Defined.

(** ** A request for a file that is not there *)

(** A FileRequest whose name ends within the first 1024 bytes of the
    segment it arrives in is read whole, and the server decodes the name
    it carries; what follows the name is not looked at. *)
Lemma file_request_as_read (rt : Runtime) (filename : string) (trailing : bytes) :
  utf8_valid (encode_utf8 filename) = true ->
  5 + len (encode_utf8 filename) <= 1024 ->
  exists rest,
    firstn 1024 (x02 :: le_bytes 4 (len (encode_utf8 filename))
                     ++ encode_utf8 filename ++ trailing)
    = x02 :: rest
    /\ FileShareServer.request_filename rt (x02 :: rest) = Ok filename.
Proof.
  intros Hvalid Hlen. set (name := encode_utf8 filename) in *.
  set (field := le_bytes 4 (len name)).
  assert (Hfield : List.length field = 4%nat) by apply length_le_bytes.
  set (unread := firstn (1024 - (5 + List.length name)) trailing).
  assert (Hread : firstn 1024 (x02 :: field ++ name ++ trailing)
                  = x02 :: field ++ name ++ unread).
  { change (x02 :: field ++ name ++ trailing) with ([x02] ++ field ++ name ++ trailing).
    rewrite !app_assoc, firstn_app.
    rewrite firstn_all2 by (rewrite !length_app, Hfield; unfold len in Hlen; cbn; lia).
    rewrite !length_app, Hfield. cbn [List.length Nat.add].
    rewrite <- !app_assoc. reflexivity. }
  exists (field ++ name ++ unread). split; [exact Hread | ].
  unfold FileShareServer.request_filename.
  assert (Hslice : slice (x02 :: field ++ name ++ unread) 1 5 = field).
  { change (x02 :: field ++ name ++ unread) with ([x02] ++ field ++ name ++ unread).
    rewrite app_assoc.
    rewrite slice_inside_prefix by (unfold len; rewrite ?length_app, ?Hfield; cbn; lia).
    rewrite slice_nonneg by lia. cbn [Z.to_nat Pos.to_nat Pos.iter_op app skipn].
    apply firstn_all2. rewrite Hfield. cbn. lia. }
  rewrite Hslice.
  assert (Hvalue : unpack [cI] field = Ok [len name]).
  { apply unpack_pack. apply pack_single. apply in_range_len_I. lia. }
  rewrite Hvalue. cbn [bind nth].
  assert (Hname : slice (x02 :: field ++ name ++ unread) 5 (5 + len name) = name).
  { unfold len. rewrite slice_nonneg by lia.
    replace (Z.to_nat (5 + Z.of_nat (List.length name) - 5)) with (List.length name) by lia.
    change (x02 :: field ++ name ++ unread) with ([x02] ++ field ++ name ++ unread).
    rewrite app_assoc, skipn_app.
    rewrite skipn_all2 by (rewrite length_app, Hfield; cbn; lia).
    rewrite length_app, Hfield.
    change (Z.to_nat 5 - (List.length [x02] + 4))%nat with 0%nat.
    cbn [skipn app].
    rewrite firstn_app, Nat.sub_diag, firstn_O, app_nil_r. apply firstn_all. }
  rewrite Hname. unfold decode_utf8. rewrite Hvalid.
  unfold name, encode_utf8. now rewrite string_of_list_byte_of_string.
Qed.

(** C7.  A FileRequest (the tag, the length of the name in four bytes,
    the name) that arrives whole in the server's one read of at most
    1024 bytes, and whose name, taken without its directory part, is no
    regular file in the storage directory, is answered with exactly one
    message, the Error with code 2 and the text "File not found: <name>",
    after which the connection is closed; no ChunkData message is sent.
    What arrives behind the request is not looked at. *)
Theorem missing_file_reply (rt : Runtime) (self : FileShareServer.t) (client_id : Z)
    (w : world) (filename : string) (trailing : bytes) (more : list bytes) :
  utf8_valid (encode_utf8 filename) = true ->
  5 + len (encode_utf8 filename) <= 1024 ->
  inbox w
  = (byte_of_Z (MessageType.value MessageType.FILE_REQUEST)
       :: le_bytes 4 (len (encode_utf8 filename)) ++ encode_utf8 filename ++ trailing)
      :: more ->
  (forall c, stat w (FileShareServer.request_filepath self filename) <> Some (File c)) ->
  exists w',
    FileShareServer._handle_client rt self client_id w = (Ok tt, w')
    /\ outbox w'
       = outbox w
           ++ [[byte_of_Z (MessageType.value MessageType.ERROR); x02; x00; x00]
                 ++ le_bytes 4 (len (encode_utf8 ("File not found: " ++ filename)))
                 ++ encode_utf8 ("File not found: " ++ filename)]
    /\ closed w' = true
    /\ stat w' = stat w.
Proof.
  intros Hvalid Hlen Hinbox Hmissing.
  change (byte_of_Z (MessageType.value MessageType.FILE_REQUEST)) with x02 in Hinbox.
  destruct (file_request_as_read rt filename trailing Hvalid Hlen) as (rest & Hread & Hname).
  apply (unfound_name_reply rt self client_id w x02 rest filename).
  - rewrite Hinbox. exact Hread.
  - reflexivity.
  - exact Hname.
  - exact Hmissing.
Qed.

Lemma missing_file_reply_witness :
  exists w',
    FileShareServer._handle_client Sample.runtime Sample.server 1
      (Sample.accepted (Sample.request "absent.txt")) = (Ok tt, w')
    /\ outbox w'
       = [[x06; x02; x00; x00; x1a; x00; x00; x00]
            ++ list_byte_of_string "File not found: absent.txt"]
    /\ closed w' = true
    /\ stat w' = Sample.storage.
Proof.
  apply (missing_file_reply Sample.runtime Sample.server 1
           (Sample.accepted (Sample.request "absent.txt")) "absent.txt" [] []).
  - reflexivity.
  - vm_compute. discriminate.
  - reflexivity.
  - intros c. vm_compute. discriminate.
Defined.

(** A request is judged by the bytes of the one read, not by the name it
    carries.  The request for [Sample.long_name], a file that is not in
    the storage directory, is 1027 bytes long; the read returns 1024 of
    them, the name is cut to one that ends in [/notes.txt], and the
    server sends the ChunkData message of [notes.txt], then the Error
    with code 3, and leaves the last three bytes unread.  The request for
    [notes.txtzzz] that arrives in two segments is answered the same
    way. *)
Lemma cut_request_gets_another_file :
  len (Sample.request Sample.long_name) = 1027
  /\ utf8_valid (encode_utf8 Sample.long_name) = true
  /\ Sample.storage (FileShareServer.request_filepath Sample.server Sample.long_name) = None
  /\ fst Sample.long_run = Ok tt
  /\ outbox (snd Sample.long_run)
     = [[x04; x00; x00; x00; x00; x00; x00; x00; x06; x00; x00; x00;
         x01; x00; x00; x00; x05; x00; x00; x00; x00; x00; x00; x00; x78]
          ++ Sample.notes;
        [x06; x03; x00; x00; x3f; x00; x00; x00]
          ++ list_byte_of_string
               "type object 'ProtocolMessage' has no attribute 'create_message'"]
  /\ inbox (snd Sample.long_run) = [list_byte_of_string "zzz"]
  /\ Sample.storage (FileShareServer.request_filepath Sample.server "notes.txtzzz") = None
  /\ outbox (snd Sample.split_run) = outbox (snd Sample.long_run).
Proof.
  repeat split; vm_compute; reflexivity.
Qed.
